(** * PyDew Valley: emotion buffer, dialogue client and dialogue sessions

    A shallow embedding of the parts of the game that connect the camera
    thread ([emotion_detector.py]), the rolling emotion buffer
    ([main.py], [level.py]), the dialogue generation client
    ([ai_dialogue_manager.py]), the dialogue box ([dialogue_system.py]),
    the settings file and the camera list ([game_settings.py]) and the
    emotion icons ([overlay.py]), followed by the properties proved about
    them.

    Conventions.  A Python [str] is a [string]; the characters are read as
    code points 0..255.  A Python [int] that only counts upwards from zero
    is a [nat], any other is a [Z].  Library calls whose result the program
    cannot control (the font metrics, the remote chat service, the capture
    driver, [random.choice]) are inputs of the functions that use them. *)

From Stdlib Require Import List Arith ZArith Lia Bool.
From Stdlib Require Import Strings.String Strings.Ascii.
From Stdlib Require Import Numbers.DecimalString Sorting.Sorted.
Import ListNotations.

#[local] Set Warnings "-register-all".

Open Scope list_scope.
Open Scope string_scope.

(* ------------------------------------------------------------------ *)
(** ** Calls that may raise *)

(** What a call gives its caller: a value, or an exception. *)
Inductive outcome (A : Type) : Type :=
| Returns (a : A)
| Raises.
Arguments Returns {A} a.
Arguments Raises {A}.

(* ------------------------------------------------------------------ *)
(** ** Python strings *)

Module PyStr.

(** [str.isspace] on one character, restricted to code points below 256:
    TAB..CR, FS..US, SPACE, NEL and NBSP. *)
Definition is_space (c : ascii) : bool :=
  let n := nat_of_ascii c in
  ((9 <=? n)%nat && (n <=? 13)%nat) || ((28 <=? n)%nat && (n <=? 32)%nat)
  || (n =? 133)%nat || (n =? 160)%nat.

Fixpoint lstrip (s : string) : string :=
  match s with
  | EmptyString => EmptyString
  | String c s' => if is_space c then lstrip s' else s
  end.

Fixpoint rev (s : string) : string :=
  match s with
  | EmptyString => EmptyString
  | String c s' => rev s' ++ String c EmptyString
  end.

Definition rstrip (s : string) : string := rev (lstrip (rev s)).

(** [s.strip()] *)
Definition strip (s : string) : string := rstrip (lstrip s).

(** Truth value of a string: [bool(s)]. *)
Definition truthy (s : string) : bool :=
  match s with EmptyString => false | String _ _ => true end.

(** [s.split(" ")]: cut at every single space, keeping empty pieces. *)
Fixpoint split_space (s : string) : list string :=
  match s with
  | EmptyString => [EmptyString]
  | String c s' =>
      if Ascii.eqb c " "%char then EmptyString :: split_space s'
      else match split_space s' with
           | w :: ws => String c w :: ws
           | [] => [String c EmptyString]
           end
  end.

(** [needle in hay] *)
Fixpoint contains (needle hay : string) : bool :=
  prefix needle hay ||
  match hay with
  | EmptyString => false
  | String _ hay' => contains needle hay'
  end.

(** Every character is white space (this includes the empty string). *)
Fixpoint blank (s : string) : bool :=
  match s with
  | EmptyString => true
  | String c s' => is_space c && blank s'
  end.

End PyStr.

(* ------------------------------------------------------------------ *)
(** ** [collections.deque(maxlen=n)] *)

Module Deque.

Record deque (A : Type) : Type := mk_deque
  { maxlen : nat;
    items : list A }.
Arguments mk_deque {A} _ _.
Arguments maxlen {A} _.
Arguments items {A} _.

(** [deque(maxlen=n)] *)
Definition new {A : Type} (n : nat) : deque A := mk_deque n [].

(** [d.append(x)]: the element goes to the right end; when the deque was
    full the leftmost element is discarded. *)
Definition append {A : Type} (d : deque A) (x : A) : deque A :=
  let l := (items d ++ [x])%list in
  mk_deque (maxlen d) (if (maxlen d <? List.length l)%nat then tl l else l).

(** [list(d)] *)
Definition to_list {A : Type} (d : deque A) : list A := items d.

(** [bool(d)] *)
Definition truthy {A : Type} (d : deque A) : bool :=
  match items d with [] => false | _ :: _ => true end.

(** A run of appends, in order. *)
Definition extend {A : Type} (d : deque A) (xs : list A) : deque A :=
  fold_left append xs d.

(** The states a deque can be in: never longer than its bound. *)
Definition wf {A : Type} (d : deque A) : Prop :=
  (List.length (items d) <= maxlen d)%nat.

(** The last [n] elements of a list. *)
Definition lastn {A : Type} (n : nat) (l : list A) : list A :=
  skipn (List.length l - n) l.

End Deque.

(* ------------------------------------------------------------------ *)
(** ** [ai_dialogue_manager.py] *)

Module AIDialogue.

(** What [json.load] can give back. *)
Inductive json : Type :=
| JNull
| JBool (b : bool)
| JNum (n : Z)
| JStr (s : string)
| JArr (l : list json)
| JObj (fields : list (string * json)).

(** What opening and parsing the credentials file can do. *)
Inductive cred_file : Type :=
| FileNotFound
| InvalidJSON
| OtherError
| Parsed (data : json).

(** [bool(v)] of a parsed value. *)
Definition json_truthy (v : json) : bool :=
  match v with
  | JNull => false
  | JBool b => b
  | JNum n => negb (Z.eqb n 0)
  | JStr s => PyStr.truthy s
  | JArr l => match l with [] => false | _ => true end
  | JObj f => match f with [] => false | _ => true end
  end.

(** Lookup in the dict built by [json.load]: a repeated key keeps its
    last value. *)
Fixpoint dict_get (fields : list (string * json)) (k : string) : option json :=
  match fields with
  | [] => None
  | (k', v) :: rest =>
      match dict_get rest k with
      | Some v' => Some v'
      | None => if String.eqb k' k then Some v else None
      end
  end.

(** [data.get(k)]: [None] stands for a raised [AttributeError] (the value
    is not a dict), [Some JNull] for a missing key. *)
Definition data_get (data : json) (k : string) : option json :=
  match data with
  | JObj fields =>
      Some (match dict_get fields k with Some v => v | None => JNull end)
  | _ => None
  end.

Record credentials : Type := mk_credentials
  { api_key : json;
    base_url : json }.

(** [_load_api_credentials]: every exception is turned into [None]. *)
Definition _load_api_credentials (f : cred_file) : option credentials :=
  match f with
  | FileNotFound => None
  | InvalidJSON => None
  | OtherError => None
  | Parsed data =>
      match data_get data "OPENAI_API_KEY" with
      | None => None
      | Some k =>
          match data_get data "base_url" with
          | None => None
          | Some u =>
              if negb (json_truthy k) || negb (json_truthy u) then None
              else Some (mk_credentials k u)
          end
      end
  end.

(** The client object returned by [openai.OpenAI(...)]. *)
Record client : Type := mk_client
  { client_key : json;
    client_url : json }.

Record AIDialogueManager : Type := mk_manager
  { mgr_client : option client;
    fallback_mode : bool;
    mgr_credentials : option credentials }.

(** [__init__].  [openai_imported] is false when the import at the top of
    the module failed; [ctor_ok] tells whether [openai.OpenAI(...)]
    returns (true) or raises (false). *)
Definition init (openai_imported : bool) (f : cred_file)
    (ctor_ok : credentials -> bool) : AIDialogueManager :=
  let client0 : option client := None in
  let fallback0 := true in
  if negb openai_imported then mk_manager client0 fallback0 None
  else
    let creds := _load_api_credentials f in
    match creds with
    | Some c =>
        if ctor_ok c
        then mk_manager (Some (mk_client (api_key c) (base_url c))) false creds
        else mk_manager client0 true creds
    | None => mk_manager client0 fallback0 creds
    end.

Definition emotion_guidance : list (string * string) :=
  [ ("happy", "The player seems cheerful and upbeat. Match their positive energy and share in their good mood.");
    ("sad", "The player appears down or disappointed. Be comforting, encouraging, and offer gentle support.");
    ("angry", "The player seems frustrated or upset. Be calming, understanding, and help them feel better.");
    ("surprised", "The player looks amazed or shocked. Share in their wonder and excitement about what's happening.");
    ("fearful", "The player appears worried or anxious. Be reassuring, supportive, and help them feel safe.");
    ("neutral", "The player seems calm and focused. Be friendly and helpful in a straightforward way.") ].

Fixpoint assoc (l : list (string * string)) (k : string) : option string :=
  match l with
  | [] => None
  | (k', v) :: rest => if String.eqb k' k then Some v else assoc rest k
  end.

(** [emotion_guidance.get(emotion, emotion_guidance["neutral"])] *)
Definition emotion_hint (emotion : string) : string :=
  match assoc emotion_guidance emotion with
  | Some h => h
  | None =>
      match assoc emotion_guidance "neutral" with
      | Some h => h
      | None => ""
      end
  end.

(** [_get_fallback_dialogue] *)
Definition _get_fallback_dialogue
    (character_name player_context emotion : string) : string :=
  if PyStr.contains "Merchant Pete" character_name then
    if String.eqb emotion "happy" then
      "I can see you're in great spirits today! That positive energy will help your crops grow beautifully. What can I get you?"
    else if String.eqb emotion "sad" then
      "I notice you seem a bit down, friend. Remember, every farmer has tough days, but I've got just the things to brighten your mood!"
    else if String.eqb emotion "angry" then
      "Take a deep breath, friend. Farming can be frustrating sometimes, but you're doing better than you think. Let me help you out."
    else if String.eqb emotion "surprised" then
      "You look amazed! There's always something wonderful to discover in farming. I've got some interesting items you might like!"
    else if String.eqb emotion "fearful" then
      "Don't worry, you're safe here with me. Farming can feel overwhelming at first, but I'll help you get what you need."
    else if PyStr.contains "rich" player_context then
      "Welcome back, esteemed farmer! Your success is impressive. I have some premium items that might interest you."
    else if PyStr.contains "new" player_context
            || PyStr.contains "starting" player_context then
      "Hello there! New to farming? Don't worry, I've got just the tools and seeds to get you started on your adventure!"
    else
      "Welcome! It's a fine day for farming, isn't it? Let me know if you need anything."
  else if String.eqb emotion "happy" then
    "I can see you're having a great day! How wonderful!"
  else if String.eqb emotion "sad" then
    "You seem a bit down, friend. I hope things look up soon!"
  else
    "Hello there! Nice to see you around the farm today.".

(** The request handed to [client.chat.completions.create]. *)
Record chat_request : Type := mk_request
  { req_model : string;
    req_system : string;
    req_character_name : string;
    req_character_role : string;
    req_player_context : string;
    req_emotion : string;
    req_emotion_hint : string;
    req_max_tokens : Z }.

(** What the remote call does: it raises (time-out, transport error, bad
    status), or it returns a response whose [choices] each carry a message
    content that is a string or [None]. *)
Inductive api_result : Type :=
| ApiRaises
| ApiResponse (choices : list (option string)).

Definition remote_service : Type := chat_request -> api_result.

(** The arguments of [client.chat.completions.create] built from the
    arguments of [generate_npc_dialogue]. *)
Definition build_request
    (character_name character_role player_context emotion : string)
    : chat_request :=
  mk_request "llama-3.1-8b-instruct"
    "You are a helpful NPC in a farming simulation game. Keep responses brief, friendly, and appropriate for all ages."
    character_name character_role player_context emotion
    (emotion_hint emotion) 100.

(** [generate_npc_dialogue].  The result is the manager after the call
    together with what the call gives its caller.  The exceptions of the
    [try] block are caught by its [except Exception] clause. *)
Definition generate_npc_dialogue (remote : remote_service)
    (self : AIDialogueManager)
    (character_name character_role player_context emotion : string)
    : AIDialogueManager * outcome string :=
  match fallback_mode self, mgr_client self with
  | true, _ | _, None =>
      (self, Returns (_get_fallback_dialogue character_name player_context emotion))
  | false, Some _ =>
      match remote (build_request character_name character_role
                      player_context emotion) with
      | ApiResponse (Some content :: _) => (self, Returns (PyStr.strip content))
      | ApiResponse (None :: _)   (* AttributeError on [None.strip()] *)
      | ApiResponse []            (* IndexError on [choices[0]] *)
      | ApiRaises =>
          (self, Returns (_get_fallback_dialogue character_name player_context emotion))
      end
  end.

(** The manager goes to the remote service: [fallback_mode] is off and
    there is a client. *)
Definition online (self : AIDialogueManager) : bool :=
  negb (fallback_mode self)
  && match mgr_client self with Some _ => true | None => false end.

(** The remote call did not give a content string: it raised, or the
    response has no choice, or the content of the first is [None]. *)
Definition call_failed (r : api_result) : bool :=
  match r with
  | ApiResponse (Some _ :: _) => false
  | _ => true
  end.

(** Credentials that cannot be used: no file, a file that is not JSON, or
    a JSON object without one of the two keys. *)
Definition unusable (f : cred_file) : Prop :=
  f = FileNotFound
  \/ f = InvalidJSON
  \/ exists fields,
       f = Parsed (JObj fields)
       /\ (dict_get fields "OPENAI_API_KEY" = None
           \/ dict_get fields "base_url" = None).

End AIDialogue.

(* ------------------------------------------------------------------ *)
(** ** [dialogue_system.py] *)

Module Dialogue.

Import AIDialogue.

(** The functions stored as [on_finish_callback].  The level passes its
    [open_trader_menu]; calling a callback is recorded, not executed. *)
Inductive callback : Type :=
| open_trader_menu
| other_callback (id : nat).

(** The [player_context] dict; a field is [None] when the key is absent. *)
Record context : Type := mk_context
  { npc_name : option string;
    npc_role : option string;
    situation : option string;
    emotion : option string;
    player_money : option Z }.

(** [d.get(key, default)] *)
Definition get_default (v : option string) (default : string) : string :=
  match v with Some s => s | None => default end.

Definition page : Type := list string.

Record DialogueSystem : Type := mk_system
  { active : bool;
    current_dialogue : list page;
    dialogue_index : nat;
    on_finish_callback : option callback;
    ai_enabled : bool;
    ai_manager : option AIDialogueManager }.

(** [text_box_rect.width] *)
Definition text_box_width : Z := 1200.

(** [__init__]: [setting] is [game_settings.get("enable_ai_dialogue", True)],
    [ai_available] the module flag [AI_AVAILABLE]; the remaining arguments
    are those of the manager's constructor. *)
Definition init (setting ai_available openai_imported : bool)
    (f : cred_file) (ctor_ok : credentials -> bool) : DialogueSystem :=
  let enabled := setting && ai_available in
  mk_system false [] 0 None enabled
    (if enabled then Some (AIDialogue.init openai_imported f ctor_ok)
     else None).

(** [_get_static_fallback] *)
Definition _get_static_fallback (character_id : string) : string :=
  if String.eqb character_id "trader"
  then "Welcome, friend! I have many fine goods for a hardworking farmer like you. Let's see what you need."
  else "Hello there! Nice day for farming.".

(** [range(0, stop, step)] for a positive step. *)
Definition range_step (stop step : nat) : list nat :=
  map (fun k => k * step)%nat (seq 0 ((stop + step - 1) / step)).

(** [l[i:j]] for [0 <= i <= j]. *)
Definition slice {A : Type} (l : list A) (i j : nat) : list A :=
  firstn (j - i) (skipn i l).

Definition lines_per_page : nat := 4.

Definition placeholder : list page := [["No dialogue available."]].

(** [end_dialogue]: the new state and the callbacks it called. *)
Definition end_dialogue (self : DialogueSystem)
    : DialogueSystem * list callback :=
  let self1 :=
    mk_system false [] 0 (on_finish_callback self)
      (ai_enabled self) (ai_manager self) in
  match on_finish_callback self1 with
  | Some cb =>
      (mk_system false [] 0 None (ai_enabled self) (ai_manager self), [cb])
  | None => (self1, [])
  end.

(** [next_line] *)
Definition next_line (self : DialogueSystem)
    : DialogueSystem * list callback :=
  let self1 :=
    mk_system (active self) (current_dialogue self)
      (dialogue_index self + 1) (on_finish_callback self)
      (ai_enabled self) (ai_manager self) in
  if (List.length (current_dialogue self1) <=? dialogue_index self1)%nat
  then end_dialogue self1
  else (self1, []).

(** The callbacks called when a stored callback is called once. *)
Definition called (cb : option callback) : list callback :=
  match cb with Some c => [c] | None => [] end.

(** The box at rest, as [__init__] and [end_dialogue] leave it. *)
Definition at_rest (s : DialogueSystem) : Prop :=
  current_dialogue s = [] /\ dialogue_index s = 0%nat
  /\ on_finish_callback s = None.

Section WithFont.

(** [self.font.size(s)[0]]: the width in pixels of [s] when rendered. *)
Variable font_size : string -> Z.

(** One round of the loop over the words: the lines so far and the line
    under construction. *)
Definition wrap_step (max_width : Z) (st : list string * string)
    (word : string) : list string * string :=
  let '(lines, current_line) := st in
  let test_line := current_line ++ word ++ " " in
  if (font_size test_line <? max_width)%Z then (lines, test_line)
  else
    ((if PyStr.truthy (PyStr.strip current_line)
      then (lines ++ [PyStr.strip current_line])%list
      else lines),
     word ++ " ").

(** The lines computed by the first half of [_wrap_text]. *)
Definition wrap_lines (text : string) (max_width : Z) : list string :=
  let words := PyStr.split_space text in
  let '(lines, current_line) :=
    fold_left (wrap_step max_width) words ([], "") in
  if PyStr.truthy (PyStr.strip current_line)
  then (lines ++ [PyStr.strip current_line])%list
  else lines.

(** [_wrap_text] *)
Definition _wrap_text (text : string) (max_width : Z) : list page :=
  let lines := wrap_lines text max_width in
  let pages :=
    map (fun i => slice lines i (i + lines_per_page))
      (range_step (List.length lines) lines_per_page) in
  match pages with
  | [] => placeholder
  | _ :: _ => pages
  end.

(** [start_dialogue].  The third component is [false] when an exception
    raised by the manager escapes (the box is then left as the first
    three assignments made it). *)
Definition start_dialogue (remote : remote_service)
    (self : DialogueSystem) (character_id : string)
    (player_context : context) (on_finish : option callback)
    : DialogueSystem * list callback * bool :=
  let width := (text_box_width - 40)%Z in
  match (if ai_enabled self then ai_manager self else None) with
  | Some mgr =>
      match generate_npc_dialogue remote mgr
              (get_default (npc_name player_context) "NPC")
              (get_default (npc_role player_context) "character")
              (get_default (situation player_context) "meeting you")
              (get_default (emotion player_context) "neutral") with
      | (mgr', Returns dialogue_line) =>
          let self2 :=
            mk_system true (_wrap_text dialogue_line width) 0 on_finish
              (ai_enabled self) (Some mgr') in
          match current_dialogue self2 with
          | [] => (end_dialogue self2, true)
          | _ :: _ => (self2, [], true)
          end
      | (mgr', Raises) =>
          (mk_system true (current_dialogue self) 0 on_finish
             (ai_enabled self) (Some mgr'), [], false)
      end
  | None =>
      let fallback_dialogue := _get_static_fallback character_id in
      let self2 :=
        mk_system true (_wrap_text fallback_dialogue width) 0 on_finish
          (ai_enabled self) (ai_manager self) in
      match current_dialogue self2 with
      | [] => (end_dialogue self2, true)
      | _ :: _ => (self2, [], true)
      end
  end.

(** The text that [start_dialogue] paginates, when it gets one. *)
Definition dialogue_text (remote : remote_service)
    (self : DialogueSystem) (character_id : string)
    (player_context : context) : outcome string :=
  match (if ai_enabled self then ai_manager self else None) with
  | Some mgr =>
      snd (generate_npc_dialogue remote mgr
             (get_default (npc_name player_context) "NPC")
             (get_default (npc_role player_context) "character")
             (get_default (situation player_context) "meeting you")
             (get_default (emotion player_context) "neutral"))
  | None => Returns (_get_static_fallback character_id)
  end.

(** What the game loop can do with the box. *)
Inductive op : Type :=
| OpStart (remote : remote_service) (character_id : string)
    (player_context : context) (on_finish : option callback)
| OpNext
| OpEnd.

Definition run_op (self : DialogueSystem) (o : op) : DialogueSystem :=
  match o with
  | OpStart remote cid ctx cb =>
      fst (fst (start_dialogue remote self cid ctx cb))
  | OpNext => fst (next_line self)
  | OpEnd => fst (end_dialogue self)
  end.

(** The states of a box that was built by [__init__] and then used. *)
Inductive reachable : DialogueSystem -> Prop :=
| reach_init : forall setting ai_available openai_imported f ctor_ok,
    reachable (init setting ai_available openai_imported f ctor_ok)
| reach_op : forall s o, reachable s -> reachable (run_op s o).

End WithFont.

End Dialogue.

(* ------------------------------------------------------------------ *)
(** ** [emotion_detector.py]: the camera and the detection thread *)

Module Camera.

(** The OpenCV constants [cv2.CAP_DSHOW] and [cv2.CAP_MSMF]. *)
Definition CAP_DSHOW : Z := 700.
Definition CAP_MSMF : Z := 1400.

Definition camera_backends : list Z := [CAP_DSHOW; CAP_MSMF; 0%Z].

Definition frame : Type := list Z.

(** A [cv2.VideoCapture] object, given by what its methods do when the
    loop over the backends (or the scan of the cameras) calls them;
    [release] does not raise. *)
Record capture : Type := mk_capture
  { cap_isOpened : outcome bool;
    cap_read : outcome (bool * option frame);
    cap_set : outcome unit }.

(** The capture driver: what [cv2.VideoCapture(index)] (no backend) and
    [cv2.VideoCapture(index, backend)] do. *)
Definition driver : Type := Z -> option Z -> outcome capture.

(** A capture object comes into being, or is released; the number is the
    backend under which it was requested. *)
Inductive event : Type :=
| EvConstruct (backend : Z)
| EvRelease (backend : Z).

Definition handle : Type := (Z * capture)%type.

(** [if cap: cap.release()] *)
Definition release_if (cap : option handle) : list event :=
  match cap with
  | Some (b, _) => [EvRelease b]
  | None => []
  end.

(** Lines 156 to 160: the constructor call chosen by [backend == 0]. *)
Definition open_capture (drv : driver) (selected_camera_index : Z)
    (backend : Z) : outcome capture :=
  if (backend =? 0)%Z then drv selected_camera_index None
  else drv selected_camera_index (Some backend).

(** The constructor call gives a capture object. *)
Definition constructs (drv : driver) (selected_camera_index : Z)
    (backend : Z) : bool :=
  match open_capture drv selected_camera_index backend with
  | Returns _ => true
  | Raises => false
  end.

(** The body of the loop over [camera_backends]: the new value of [cap],
    whether [break] was executed, and the events. *)
Definition try_backend (drv : driver) (selected_camera_index : Z)
    (cap : option handle) (backend : Z)
    : option handle * bool * list event :=
  match open_capture drv selected_camera_index backend with
  | Raises => (None, false, release_if cap)
  | Returns c =>
      let cap := Some (backend, c) in
      match cap_isOpened c with
      | Raises => (None, false, (EvConstruct backend :: release_if cap)%list)
      | Returns true =>
          match cap_read c with
          | Raises =>
              (None, false, (EvConstruct backend :: release_if cap)%list)
          | Returns (ret, test_frame) =>
              if ret && (match test_frame with Some _ => true | None => false end)
              then
                match cap_set c with
                | Returns _ => (cap, true, [EvConstruct backend])
                | Raises =>
                    (None, false,
                     (EvConstruct backend :: release_if cap)%list)
                end
              else (None, false, [EvConstruct backend; EvRelease backend])
          end
      | Returns false =>
          (None, false, (EvConstruct backend :: release_if cap)%list)
      end
  end.

(** The loop over the backends, from a given value of [cap]. *)
Fixpoint acquire_from (drv : driver) (selected_camera_index : Z)
    (backends : list Z) (cap : option handle)
    : option handle * list event :=
  match backends with
  | [] => (cap, [])
  | backend :: rest =>
      let '(cap', brk, ev) :=
        try_backend drv selected_camera_index cap backend in
      if brk then (cap', ev)
      else
        let '(cap'', ev') :=
          acquire_from drv selected_camera_index rest cap' in
        (cap'', (ev ++ ev')%list)
  end.

(** Lines 146 to 189 of [run]. *)
Definition acquire (drv : driver) (selected_camera_index : Z)
    : option handle * list event :=
  acquire_from drv selected_camera_index camera_backends None.

(** One round of the detection loop, by what it amounts to: the frame
    read fails, nothing is classified, a label is classified, or something
    raises. *)
Inductive tick : Type :=
| TickReadFailed
| TickNoLabel
| TickLabel (emotion : string)
| TickRaises.

(** The detection loop over the rounds that happen before the stop flag
    is seen; it ends early when a round raises. *)
Fixpoint detect (ticks : list tick) (emotions_deque : Deque.deque string)
    : Deque.deque string :=
  match ticks with
  | [] => emotions_deque
  | TickReadFailed :: rest => detect rest emotions_deque
  | TickNoLabel :: rest => detect rest emotions_deque
  | TickLabel e :: rest => detect rest (Deque.append emotions_deque e)
  | TickRaises :: _ => emotions_deque
  end.

(** How [run] ends. *)
Inductive run_end : Type :=
| LoadFailed       (* returns: model or face detector missing *)
| NoCamera         (* returns: no backend gave a camera *)
| Stopped          (* returns after the detection loop *)
| Crashed.         (* an exception leaves [run] *)

(** The capture objects of a trace that were not released. *)
Fixpoint live (tr : list event) (open : list Z) : list Z :=
  match tr with
  | [] => open
  | EvConstruct b :: rest => live rest (open ++ [b])%list
  | EvRelease b :: rest =>
      live rest (filter (fun b' => negb (b' =? b)%Z) open)
  end.

(** A backend is accepted when the object opens, the warm-up read gives
    a frame, and the settings go through. *)
Definition accepted (drv : driver) (selected_camera_index : Z)
    (backend : Z) : bool :=
  match open_capture drv selected_camera_index backend with
  | Returns c =>
      match cap_isOpened c, cap_read c, cap_set c with
      | Returns true, Returns (true, Some _), Returns _ => true
      | _, _, _ => false
      end
  | Raises => false
  end.

(** The warm-up test of lines 166 to 169 alone. *)
Definition opens_and_reads (drv : driver) (selected_camera_index : Z)
    (backend : Z) : bool :=
  match open_capture drv selected_camera_index backend with
  | Returns c =>
      match cap_isOpened c, cap_read c with
      | Returns true, Returns (true, Some _) => true
      | _, _ => false
      end
  | Raises => false
  end.

(** The backends for which a capture object was requested, in order. *)
Fixpoint tried (drv : driver) (selected_camera_index : Z)
    (backends : list Z) : list Z :=
  match backends with
  | [] => []
  | b :: rest =>
      if accepted drv selected_camera_index b then [b]
      else b :: tried drv selected_camera_index rest
  end.

(** The constructions of a trace. *)
Definition constructed (tr : list event) : list Z :=
  flat_map (fun e => match e with EvConstruct b => [b] | EvRelease _ => [] end) tr.

End Camera.

(* ------------------------------------------------------------------ *)
(** ** [main.py] and [level.py]: the buffer and the trader *)

Module Level.

Import Dialogue.

(** [Game.__init__]: [deque(maxlen=5)] *)
Definition emotions_deque0 : Deque.deque string := Deque.new 5.

Record Level : Type := mk_level
  { emotions_deque : Deque.deque string;
    money : Z;
    dialogue_system : DialogueSystem }.

Definition test_emotions : list string :=
  ["happy"; "surprised"; "neutral"; "excited"].

(** [random.choice(seq)] with the random source as an input. *)
Definition random_choice (rnd : nat) (l : list string) : string :=
  nth (rnd mod List.length l) l "".

(** The labels the classifier is trained on (the six keys of
    [emotion_guidance]). *)
Definition emotion_labels : list string :=
  map fst AIDialogue.emotion_guidance.

(** Lines 298 to 335 of [toggle_shop]: the deque afterwards and the
    [player_context] dict. *)
Definition shop_context (rnd : nat) (self : Level)
    : Deque.deque string * context :=
  let d := emotions_deque self in
  let recent_emotions :=
    if Deque.truthy d then Deque.to_list d else ["neutral"] in
  let current_emotion :=
    match recent_emotions with
    | e :: _ => e
    | [] => "neutral"
    end in
  let '(d', current_emotion) :=
    if negb (Deque.truthy d) || (List.length (Deque.items d) =? 0)%nat
    then
      let test_emotion := random_choice rnd test_emotions in
      (Deque.append d test_emotion, test_emotion)
    else (d, current_emotion) in
  let situation :=
    if (money self >? 1000)%Z
    then "player has lots of money and is doing well farming"
    else if (money self <? 100)%Z
    then "player is just starting out and has limited funds"
    else "player is making steady progress with their farm" in
  (d',
   mk_context (Some "Merchant Pete") (Some "friendly trader")
     (Some situation) (Some current_emotion) (Some (money self))).

(** [toggle_shop] *)
Definition toggle_shop (font_size : string -> Z)
    (remote : AIDialogue.remote_service) (rnd : nat) (self : Level)
    : Level * list callback * bool :=
  let '(d', player_context) := shop_context rnd self in
  let '(ds', fired, ok) :=
    start_dialogue font_size remote (dialogue_system self) "trader"
      player_context (Some open_trader_menu) in
  (mk_level d' (money self) ds', fired, ok).

(** The emotion [toggle_shop] hands to the dialogue. *)
Definition context_emotion (rnd : nat) (self : Level) : option string :=
  emotion (snd (shop_context rnd self)).

End Level.

(* ------------------------------------------------------------------ *)
(** ** [dialogue_system.py]: input and drawing *)

Module DialogueUI.

Import Dialogue.

(** The keys the game looks at. *)
Inductive key : Type :=
| K_SPACE
| K_RETURN
| K_ESCAPE
| K_i
| K_other (code : Z).

(** A pygame event, by its type. *)
Inductive pg_event : Type :=
| KEYDOWN (k : key)
| KEYUP (k : key)
| QUIT
| other_event.

(** [event.key == pygame.K_SPACE or event.key == pygame.K_RETURN] *)
Definition advances (k : key) : bool :=
  match k with
  | K_SPACE | K_RETURN => true
  | _ => false
  end.

(** The event is a key press that advances the dialogue. *)
Definition is_advance (e : pg_event) : bool :=
  match e with
  | KEYDOWN k => advances k
  | _ => false
  end.

(** The box with another page index. *)
Definition at_index (self : DialogueSystem) (i : nat) : DialogueSystem :=
  mk_system (active self) (current_dialogue self) i
    (on_finish_callback self) (ai_enabled self) (ai_manager self).

(** The box after its session ended. *)
Definition ended (self : DialogueSystem) : DialogueSystem :=
  mk_system false [] 0 None (ai_enabled self) (ai_manager self).

(** [input]: the box afterwards, the callbacks called, and the returned
    flag. *)
Fixpoint input (self : DialogueSystem) (events : list pg_event)
    : DialogueSystem * list callback * bool :=
  match events with
  | [] => (self, [], false)
  | KEYDOWN k :: rest =>
      if advances k then (next_line self, true)
      else input self rest
  | _ :: rest => input self rest
  end.

(** What [draw] puts into the box: the lines of the page, each with its
    row, and the prompt. *)
Record drawn : Type := mk_drawn
  { shown : list (nat * string);
    prompt : string }.

(** [enumerate(l)] *)
Definition enumerate {A : Type} (l : list A) : list (nat * A) :=
  combine (seq 0 (List.length l)) l.

(** [draw]: [None] when nothing is drawn. *)
Definition draw (self : DialogueSystem) : option drawn :=
  if active self then
    let rows :=
      match nth_error (current_dialogue self) (dialogue_index self) with
      | Some current_page =>
          filter (fun il => PyStr.truthy (PyStr.strip (snd il)))
            (enumerate current_page)
      | None => []
      end in
    let prompt_text :=
      if (Z.of_nat (dialogue_index self)
          <? Z.of_nat (List.length (current_dialogue self)) - 1)%Z
      then "Press ENTER to continue..."
      else "Press ENTER to finish..." in
    Some (mk_drawn rows prompt_text)
  else None.

(** [update].  [events] is [None] when the argument is left out. *)
Definition update (self : DialogueSystem) (events : option (list pg_event))
    : DialogueSystem * list callback * option drawn :=
  if active self then
    let '(self1, fired) :=
      match events with
      | Some (e :: rest) => fst (input self (e :: rest))
      | Some [] | None => (self, [])
      end in
    (self1, fired, draw self1)
  else (self, [], None).

(** [n] presses of the key that advances, one per frame. *)
Fixpoint press (n : nat) (self : DialogueSystem)
    : DialogueSystem * list callback :=
  match n with
  | O => (self, [])
  | S n' =>
      let '(s1, f1, _) := update self (Some [KEYDOWN K_RETURN]) in
      let '(s2, f2) := press n' s1 in
      (s2, (f1 ++ f2)%list)
  end.

End DialogueUI.

(* ------------------------------------------------------------------ *)
(** ** Vocabulary for the pagination properties *)

Module WrapSpec.

(** A candidate line, as the loop of [_wrap_text] holds it before
    stripping: it was measured and found narrower than [max_width], or it
    is a single word of the text followed by a space. *)
Definition candidate_ok (font_size : string -> Z) (words : list string)
    (max_width : Z) (cur : string) : Prop :=
  (font_size cur < max_width)%Z
  \/ exists word, In word words /\ cur = word ++ " ".

(** A finished line: not empty, and the strip of a candidate. *)
Definition line_ok (font_size : string -> Z) (words : list string)
    (max_width : Z) (line : string) : Prop :=
  line <> ""
  /\ exists cur,
       line = PyStr.strip cur /\ candidate_ok font_size words max_width cur.

End WrapSpec.

(* ------------------------------------------------------------------ *)
(** ** [emotion_detector.py]: the face chosen and the labels pushed *)

Module Detection.

Import Camera.

(** A rectangle of [detectMultiScale]: x, y, width, height.  The
    rectangles lie in the 640 by 480 frame, so the products below stay
    far from the bounds of the detector's integers. *)
Definition face : Type := (Z * Z * Z * Z)%type.

(** [lambda f: f[2] * f[3]] *)
Definition area (f : face) : Z :=
  let '(_, _, w, h) := f in (w * h)%Z.

(** Insertion into a list that is sorted by decreasing area: in front of
    the first element that is not larger. *)
Fixpoint insert_desc (f : face) (l : list face) : list face :=
  match l with
  | [] => [f]
  | g :: l' =>
      if (area g <=? area f)%Z then f :: g :: l'
      else g :: insert_desc f l'
  end.

(** [sorted(faces, key=lambda f: f[2] * f[3], reverse=True)]: by decreasing
    area, faces of equal area in the order they had. *)
Definition sorted_by_area (faces : list face) : list face :=
  fold_right insert_desc [] faces.

(** Lines 224 to 227: the face that is processed, if there is one. *)
Definition largest_face (faces : list face) : option face :=
  match faces with
  | [] => None
  | _ :: _ => hd_error (sorted_by_area faces)
  end.

(** The first face of the largest area, computed from the left. *)
Fixpoint first_largest (faces : list face) : option face :=
  match faces with
  | [] => None
  | f :: rest =>
      match first_largest rest with
      | Some g => if (area g <=? area f)%Z then Some f else Some g
      | None => Some f
      end
  end.

(** The labels of the rounds that come before the first round that
    raises. *)
Fixpoint labels (ticks : list tick) : list string :=
  match ticks with
  | [] => []
  | TickLabel e :: rest => e :: labels rest
  | TickRaises :: _ => []
  | _ :: rest => labels rest
  end.

End Detection.

(* ------------------------------------------------------------------ *)
(** ** [game_settings.py]: the cameras that are there *)

Module Scan.

Import Camera.

(** An entry of the list of cameras: [{"index": i, "name": ...}]. *)
Record camera_info : Type := mk_camera
  { cam_index : Z;
    cam_name : string }.

(** [str(i)] for an integer. *)
Definition decimal (i : Z) : string :=
  NilEmpty.string_of_int (Z.to_int i).

(** [f"Camera {i}" + (" (Front)" if i == 1 else " (Back)" if i == 0 else "")] *)
Definition camera_label (i : Z) : string :=
  "Camera " ++ decimal i
  ++ (if (i =? 1)%Z then " (Front)"
      else if (i =? 0)%Z then " (Back)" else "").

Definition default_camera : camera_info := mk_camera 0 "Default Camera".

(** The loop of [detect_available_cameras] over the indices that are
    left, with the cameras found so far; the events carry the camera
    index.  [cv2.VideoCapture(i)] is the driver called without backend. *)
Fixpoint scan (drv : driver) (indices : list Z)
    (available_cameras : list camera_info)
    : list camera_info * list event :=
  match indices with
  | [] => (available_cameras, [])
  | i :: rest =>
      match drv i None with
      | Raises => scan drv rest available_cameras
      | Returns cap =>
          match cap_isOpened cap with
          | Raises =>
              let '(cams, ev) := scan drv rest available_cameras in
              (cams, EvConstruct i :: ev)
          | Returns true =>
              match cap_read cap with
              | Raises =>
                  let '(cams, ev) := scan drv rest available_cameras in
                  (cams, EvConstruct i :: ev)
              | Returns (ret, frame) =>
                  let found :=
                    if ret && (match frame with Some _ => true | None => false end)
                    then (available_cameras
                          ++ [mk_camera i (camera_label i)])%list
                    else available_cameras in
                  let '(cams, ev) := scan drv rest found in
                  (cams, EvConstruct i :: EvRelease i :: ev)
              end
          | Returns false =>
              if (i >? 2)%Z then (available_cameras, [EvConstruct i])
              else
                let '(cams, ev) := scan drv rest available_cameras in
                (cams, EvConstruct i :: ev)
          end
      end
  end.

(** [range(10)] *)
Definition range10 : list Z := map Z.of_nat (seq 0 10).

(** [detect_available_cameras] *)
Definition detect_available_cameras (drv : driver)
    : list camera_info * list event :=
  let '(available_cameras, ev) := scan drv range10 [] in
  (match available_cameras with
   | [] => [default_camera]
   | _ :: _ => available_cameras
   end, ev).

(** [get_camera_name] *)
Definition get_camera_name (drv : driver) (index : Z) : string :=
  match find (fun camera => (cam_index camera =? index)%Z)
          (fst (detect_available_cameras drv)) with
  | Some camera => cam_name camera
  | None => "Camera " ++ decimal index
  end.

(** The camera at index [i] opens and gives a frame. *)
Definition works (drv : driver) (i : Z) : bool :=
  opens_and_reads drv i 0.

(** The capture object for index [i] is built and says it is not open. *)
Definition closed (drv : driver) (i : Z) : bool :=
  match drv i None with
  | Returns cap =>
      match cap_isOpened cap with
      | Returns false => true
      | _ => false
      end
  | Raises => false
  end.

(** The capture object for index [i] is built and says it is open. *)
Definition opened (drv : driver) (i : Z) : bool :=
  match drv i None with
  | Returns cap =>
      match cap_isOpened cap with
      | Returns true => true
      | _ => false
      end
  | Raises => false
  end.

(** The capture object for index [i] is open and its [read] raises. *)
Definition read_raises (drv : driver) (i : Z) : bool :=
  match drv i None with
  | Returns cap =>
      match cap_isOpened cap, cap_read cap with
      | Returns true, Raises => true
      | _, _ => false
      end
  | Raises => false
  end.

(** The indices the loop gets to: up to and including the first index
    above 2 whose capture object is not open. *)
Fixpoint scanned (drv : driver) (indices : list Z) : list Z :=
  match indices with
  | [] => []
  | i :: rest =>
      if closed drv i && (i >? 2)%Z then [i]
      else i :: scanned drv rest
  end.

(** The events of one round of the loop. *)
Definition round_events (drv : driver) (i : Z) : list event :=
  match drv i None with
  | Raises => []
  | Returns cap =>
      match cap_isOpened cap, cap_read cap with
      | Returns true, Returns _ => [EvConstruct i; EvRelease i]
      | _, _ => [EvConstruct i]
      end
  end.

End Scan.

(* ------------------------------------------------------------------ *)
(** ** [game_settings.py]: the settings file *)

Module Settings.

(** A value of a settings dict.  A float is kept as the text that
    [json] writes and reads back for it; a list or an object that sits
    inside the dict is kept as its text too. *)
Inductive value : Type :=
| VBool (b : bool)
| VInt (n : Z)
| VFloat (repr : string)
| VStr (s : string)
| VNull
| VNested (repr : string).

(** A Python dict with string keys: every key once, in insertion order. *)
Definition dict : Type := list (string * value).

(** [d.get(k)], [None] standing for a missing key. *)
Fixpoint lookup (d : dict) (k : string) : option value :=
  match d with
  | [] => None
  | (k', v) :: rest => if String.eqb k' k then Some v else lookup rest k
  end.

(** [d[k] = v] *)
Fixpoint set_item (d : dict) (k : string) (v : value) : dict :=
  match d with
  | [] => [(k, v)]
  | (k', v') :: rest =>
      if String.eqb k' k then (k, v) :: rest
      else (k', v') :: set_item rest k v
  end.

(** The dict that [json.load] builds from the members of an object, a
    repeated name keeping its last value. *)
Definition of_pairs (pairs : list (string * value)) : dict :=
  fold_left (fun d kv => set_item d (fst kv) (snd kv)) pairs [].

(** The value that the members of an object give a name: the last one. *)
Fixpoint last_binding (pairs : list (string * value)) (k : string)
    : option value :=
  match pairs with
  | [] => None
  | (k', v) :: rest =>
      match last_binding rest k with
      | Some v' => Some v'
      | None => if String.eqb k' k then Some v else None
      end
  end.

Definition DEFAULT_SETTINGS : dict :=
  [ ("master_volume", VFloat "0.8");
    ("music_volume", VFloat "0.7");
    ("sfx_volume", VFloat "0.8");
    ("camera_index", VInt 0);
    ("enable_camera", VBool true);
    ("enable_ai_dialogue", VBool true) ].

(** What a JSON text parses to. *)
Inductive document : Type :=
| DObject (pairs : list (string * value))
| DArray (elems : list value)
| DString (s : string)
| DScalar (v : value).   (* a number, [true], [false] or [null] *)

(** The file [settings.json]. *)
Inductive settings_file : Type :=
| Missing
| NotJSON
| Unreadable           (* [open] raises something else *)
| Document (doc : document).

(** What [load_settings] can return. *)
Inductive loaded : Type :=
| LDict (d : dict)
| LArray (elems : list value)
| LString (s : string).

(** [key in settings] for a list. *)
Definition in_array (k : string) (elems : list value) : bool :=
  existsb (fun v => match v with VStr s => String.eqb s k | _ => false end)
    elems.

(** The loop of [load_settings] over [DEFAULT_SETTINGS.items()], for a
    dict. *)
Definition fill_defaults (defaults : dict) (settings : dict) : dict :=
  fold_left
    (fun d kv =>
       match lookup d (fst kv) with
       | Some _ => d
       | None => set_item d (fst kv) (snd kv)
       end)
    defaults settings.

(** [load_settings].  On a list or a string the test [key not in settings]
    works and the assignment [settings[key] = ...] raises [TypeError], so
    the value is returned only when every default key passes the test; on
    a number, a boolean or [null] the test itself raises. *)
Definition load_settings (f : settings_file) : outcome loaded :=
  match f with
  | Missing => Returns (LDict DEFAULT_SETTINGS)
  | NotJSON => Returns (LDict DEFAULT_SETTINGS)
  | Unreadable => Raises
  | Document (DObject pairs) =>
      Returns (LDict (fill_defaults DEFAULT_SETTINGS (of_pairs pairs)))
  | Document (DArray elems) =>
      if forallb (fun kv => in_array (fst kv) elems) DEFAULT_SETTINGS
      then Returns (LArray elems) else Raises
  | Document (DString s) =>
      if forallb (fun kv => PyStr.contains (fst kv) s) DEFAULT_SETTINGS
      then Returns (LString s) else Raises
  | Document (DScalar _) => Raises
  end.

(** What writing the file does: it is written, [open] fails and leaves
    it alone, or the dump fails after [open] emptied it. *)
Inductive write_result : Type :=
| Written
| OpenFailed
| DumpFailed.

(** [save_settings]: the file afterwards; the exception is swallowed. *)
Definition save_settings (w : write_result) (settings : dict)
    (f : settings_file) : settings_file :=
  match w with
  | Written => Document (DObject settings)
  | OpenFailed => f
  | DumpFailed => NotJSON
  end.

(** [get(key, default)] *)
Definition get (f : settings_file) (key : string) (default : value)
    : outcome value :=
  match load_settings f with
  | Returns (LDict d) =>
      Returns (match lookup d key with Some v => v | None => default end)
  | Returns (LArray _) => Raises     (* no attribute [get] *)
  | Returns (LString _) => Raises
  | Raises => Raises
  end.

(** [set(key, value)]: the file afterwards. *)
Definition set (w : write_result) (f : settings_file) (key : string)
    (v : value) : outcome settings_file :=
  match load_settings f with
  | Returns (LDict d) => Returns (save_settings w (set_item d key v) f)
  | Returns (LArray _) => Raises     (* item assignment raises *)
  | Returns (LString _) => Raises
  | Raises => Raises
  end.

(** [get_camera_index] and [set_camera_index] *)
Definition get_camera_index (f : settings_file) : outcome value :=
  get f "camera_index" (VInt 0).

Definition set_camera_index (w : write_result) (f : settings_file)
    (index : Z) : outcome settings_file :=
  match load_settings f with
  | Returns (LDict d) =>
      Returns (save_settings w (set_item d "camera_index" (VInt index)) f)
  | Returns (LArray _) => Raises
  | Returns (LString _) => Raises
  | Raises => Raises
  end.

(** What the file says about a key. *)
Definition file_binding (f : settings_file) (k : string) : option value :=
  match f with
  | Document (DObject pairs) => last_binding pairs k
  | _ => None
  end.

(** The file is absent, is not JSON, or holds a JSON object. *)
Definition usable (f : settings_file) : bool :=
  match f with
  | Missing | NotJSON | Document (DObject _) => true
  | _ => false
  end.

(** The file holds JSON that is not an object. *)
Definition not_an_object (f : settings_file) : bool :=
  match f with
  | Document (DArray _) | Document (DString _) | Document (DScalar _) => true
  | _ => false
  end.

End Settings.

(* ------------------------------------------------------------------ *)
(** ** [overlay.py]: the emotion icons *)

Module Overlay.

Import DialogueUI.

Definition SCREEN_WIDTH : Z := 1280.
Definition SCREEN_HEIGHT : Z := 720.

(** The names for which [__init__] looks for an icon file. *)
Definition icon_names : list string :=
  ["Happy"; "Sad"; "Angry"; "Surprised"; "Neutral"; "Fear"].

(** The keys of [emotion_icons]: the names whose file exists. *)
Definition emotion_icons (file_exists : string -> bool) : list string :=
  filter file_exists icon_names.

(** [self.emotion_icons.get(emotion)] gives an icon. *)
Definition has_icon (icons : list string) (emotion : string) : bool :=
  existsb (String.eqb emotion) icons.

(** An icon put on the screen. *)
Record drawn_icon : Type := mk_icon
  { di_emotion : string;
    di_x : Z;
    di_y : Z;
    di_size : Z;
    di_boxed : bool }.

(** The loop of the emotion display over [enumerate(emotions_to_display)],
    from a value of [current_x]. *)
Fixpoint place (icons : list string) (entries : list (nat * string))
    (current_x : Z) : list drawn_icon :=
  match entries with
  | [] => []
  | (i, emotion) :: rest =>
      if negb (has_icon icons emotion) then place icons rest current_x
      else
        let size := if (i =? 0)%nat then 64%Z else 48%Z in
        let current_x := (current_x - size)%Z in
        let x_pos := current_x in
        let y_pos := (SCREEN_HEIGHT - size - 6)%Z in
        mk_icon emotion x_pos y_pos size (i =? 0)%nat
        :: place icons rest (current_x - 6)%Z
  end.

(** The emotion display of [display]. *)
Definition emotion_display (icons : list string)
    (emotions_deque : Deque.deque string) : list drawn_icon :=
  if Deque.truthy emotions_deque then
    let emotions_to_display := List.rev (Deque.to_list emotions_deque) in
    place icons (enumerate emotions_to_display) (SCREEN_WIDTH - 6)%Z
  else [].

(** The icon [b] lies to the left of the icon [a], six pixels or more
    apart. *)
Definition left_of (a b : drawn_icon) : Prop :=
  (di_x b + di_size b + 6 <= di_x a)%Z.

End Overlay.

(* ------------------------------------------------------------------ *)
(** ** The lines of the trader *)

Module TraderLines.

Import AIDialogue Dialogue.

(** The fallback line of Merchant Pete for a player whose situation
    mentions "rich". *)
Definition rich_line : string :=
  _get_fallback_dialogue "Merchant Pete" "rich" "neutral".

(** The fallback line of Merchant Pete for a new player. *)
Definition new_farmer_line : string :=
  _get_fallback_dialogue "Merchant Pete" "new" "neutral".

(** The fallback line of Merchant Pete without emotion or situation. *)
Definition welcome_line : string :=
  _get_fallback_dialogue "Merchant Pete" "" "neutral".

End TraderLines.

(* ------------------------------------------------------------------ *)
(** ** What the dialogue client is expected to answer *)

Module ClientSpec.

Import AIDialogue.

(** The text for a request, told from the manager's state and from what
    the service does with the request built from the four arguments: the
    stripped content of the first choice when the manager is online and
    the service returns one, the fallback line otherwise. *)
Definition expected_text (remote : remote_service)
    (mgr : AIDialogueManager)
    (character_name character_role player_context emotion : string)
    : string :=
  if online mgr then
    match remote (mk_request "llama-3.1-8b-instruct"
                    "You are a helpful NPC in a farming simulation game. Keep responses brief, friendly, and appropriate for all ages."
                    character_name character_role player_context emotion
                    (emotion_hint emotion) 100) with
    | ApiResponse (Some content :: _) => PyStr.strip content
    | _ => _get_fallback_dialogue character_name player_context emotion
    end
  else _get_fallback_dialogue character_name player_context emotion.

End ClientSpec.

(* ------------------------------------------------------------------ *)
(** ** [emotion_detector.py]: [run] *)

Module Detector.

Import Camera Scan Settings.

(** The capture constructor of OpenCV: what [cv2.VideoCapture(index)]
    (no backend) and [cv2.VideoCapture(index, backend)] do, for whatever
    value the index is. *)
Definition vdriver : Type := value -> option Z -> outcome capture.

(** The constructor as [detect_available_cameras] calls it, with the
    integers of [range(10)]. *)
Definition scan_driver (vdrv : vdriver) : driver :=
  fun i backend => vdrv (VInt i) backend.

(** The constructor as the loop over the backends calls it, with the
    value of [selected_camera_index]. *)
Definition loop_driver (vdrv : vdriver) (selected_camera_index : value)
    : driver :=
  fun _ backend => vdrv selected_camera_index backend.

(** Lines 154 to 189 for the selected index. *)
Definition acquire_selected (vdrv : vdriver) (selected_camera_index : value)
    : option handle * list event :=
  acquire (loop_driver vdrv selected_camera_index) 0.

(** What [run] leaves behind: how it ends, the events of the camera scan
    made for the name of the camera (tagged with camera indices), the
    events of the loop over the backends and of the final release (tagged
    with backends), and the buffer. *)
Record run_result : Type := mk_run_result
  { r_end : run_end;
    r_scan_events : list event;
    r_loop_events : list event;
    r_deque : Deque.deque string }.

(** [run].  [loaded] is what the two loading steps give: both succeed
    ([Returns true]), one reports failure ([Returns false]), or one raises
    (the download of the face detector is not guarded).  [f] is the
    settings file read by [get_camera_index]; the name of the camera is
    looked up for the message, which scans the cameras.  [reopened] is
    what [cap.isOpened()] answers after the loop over the backends, when a
    capture object was accepted.  The statements between that test and the
    [try] do not raise. *)
Definition run (loaded : outcome bool) (f : settings_file) (vdrv : vdriver)
    (reopened : outcome bool) (ticks : list tick)
    (emotions_deque : Deque.deque string) : run_result :=
  match loaded with
  | Raises => mk_run_result Crashed [] [] emotions_deque
  | Returns false => mk_run_result LoadFailed [] [] emotions_deque
  | Returns true =>
      match get_camera_index f with
      | Raises => mk_run_result Crashed [] [] emotions_deque
      | Returns selected_camera_index =>
          let scan_ev := snd (detect_available_cameras (scan_driver vdrv)) in
          let '(cap, ev) := acquire_selected vdrv selected_camera_index in
          match cap with
          | None => mk_run_result NoCamera scan_ev ev emotions_deque
          | Some _ =>
              match reopened with
              | Raises => mk_run_result Crashed scan_ev ev emotions_deque
              | Returns false =>
                  mk_run_result NoCamera scan_ev ev emotions_deque
              | Returns true =>
                  mk_run_result Stopped scan_ev (ev ++ release_if cap)%list
                    (detect ticks emotions_deque)
              end
          end
      end
  end.

End Detector.

(* ------------------------------------------------------------------ *)
(** ** Vocabulary for the camera acquisition *)

Module CameraSpec.

Import Camera.

(** The result of one constructor call can be used as the camera: the
    object is there, says it is open, its warm-up read reports success
    with a frame that is not [None], and the three settings go through. *)
Definition usable (r : outcome capture) : bool :=
  match r with
  | Returns c =>
      match cap_isOpened c, cap_read c, cap_set c with
      | Returns true, Returns (true, Some _), Returns _ => true
      | _, _, _ => false
      end
  | Raises => false
  end.




End CameraSpec.

(* ------------------------------------------------------------------ *)
(** ** Sample inputs *)

Module Samples.

Import AIDialogue Dialogue Camera.

(** A manager that came up with API access. *)
Definition online_manager : AIDialogueManager :=
  AIDialogue.init true
    (Parsed (JObj [("OPENAI_API_KEY", JStr "sk-test");
                   ("base_url", JStr "https://api.example.org/v1")]))
    (fun _ => true).

(** A service that answers with three spaces. *)
Definition blank_service : remote_service :=
  fun _ => ApiResponse [Some "   "].

(** A service that is down. *)
Definition dead_service : remote_service := fun _ => ApiRaises.

(** A service that answers with the emotion it was sent. *)
Definition echo_service : remote_service :=
  fun request => ApiResponse [Some (req_emotion request)].

(** A service that answers. *)
Definition greeting_service : remote_service :=
  fun _ => ApiResponse [Some " Fresh seeds today! "].

(** A font in which every character is 14 pixels wide. *)
Definition fixed_font (s : string) : Z := 14 * Z.of_nat (String.length s).

(** A box whose manager came up with API access. *)
Definition online_box : DialogueSystem :=
  Dialogue.init true true true
    (Parsed (JObj [("OPENAI_API_KEY", JStr "sk-test");
                   ("base_url", JStr "https://api.example.org/v1")]))
    (fun _ => true).

Definition trader_context : context :=
  mk_context (Some "Merchant Pete") (Some "friendly trader")
    (Some "player is making steady progress with their farm")
    (Some "neutral") (Some 250%Z).

(** A capture object that opens and reads a frame. *)
Definition good_capture : capture :=
  mk_capture (Returns true) (Returns (true, Some [0%Z])) (Returns tt).

(** A capture object that opens but reads nothing. *)
Definition dark_capture : capture :=
  mk_capture (Returns true) (Returns (false, None)) (Returns tt).



(** Only Media Foundation gives a camera. *)
Definition msmf_only : driver :=
  fun _ backend =>
    match backend with
    | Some 1400%Z => Returns good_capture
    | Some _ => Returns dark_capture
    | None => Returns good_capture
    end.



(** [msmf_only] and [no_camera] for any index. *)
Definition msmf_camera : Detector.vdriver :=
  fun _ backend => msmf_only 0%Z backend.


End Samples.

(* ================================================================== *)
(** * Properties *)

(* ------------------------------------------------------------------ *)
(** ** Strings *)

Module PyStrFacts.

Import PyStr.

Lemma blank_app (a b : string) : blank (a ++ b) = blank a && blank b.
Proof.
  induction a as [|c a IH]; simpl.
  - reflexivity.
  - rewrite IH. now rewrite andb_assoc.
Qed.

Lemma lstrip_blank (s : string) : blank s = true -> lstrip s = "".
Proof.
  induction s as [|c s IH]; simpl; intros H.
  - reflexivity.
  - apply andb_true_iff in H as [Hc Hs]. rewrite Hc. now apply IH.
Qed.

Lemma strip_blank (s : string) : blank s = true -> strip s = "".
Proof.
  intros H. unfold strip, rstrip. now rewrite (lstrip_blank s H).
Qed.

Lemma space_is_space : is_space " "%char = true.
Proof. reflexivity. Qed.


Lemma split_space_blank (s : string) :
  blank s = true -> Forall (fun w => blank w = true) (split_space s).
Proof.
  induction s as [|c s IH]; simpl; intros H.
  - now constructor.
  - apply andb_true_iff in H as [Hc Hs]. specialize (IH Hs).
    destruct (Ascii.eqb c " "%char).
    + now constructor.
    + destruct (split_space s) as [|w ws].
      * constructor; [simpl; now rewrite Hc | constructor].
      * inversion IH; subst. constructor; [|assumption].
        simpl. now rewrite Hc.
Qed.

Lemma truthy_length (s : string) :
  truthy s = true <-> (0 < String.length s)%nat.
Proof. destruct s; simpl; split; intros; try lia; congruence. Qed.

End PyStrFacts.

(* ------------------------------------------------------------------ *)
(** ** Pagination *)

Module WrapFacts.

Import PyStr PyStrFacts Dialogue.

Section WithFont.

Variable font_size : string -> Z.

Lemma wrap_step_blank (w : Z) (cur word : string) :
  blank cur = true -> blank word = true ->
  exists cur', wrap_step font_size w ([], cur) word = ([], cur')
               /\ blank cur' = true.
Proof.
  intros Hc Hw. unfold wrap_step.
  assert (Ht : blank (cur ++ word ++ " ") = true).
  { rewrite !blank_app, Hc, Hw. reflexivity. }
  destruct (font_size (cur ++ word ++ " ") <? w)%Z.
  - eexists; split; [reflexivity | exact Ht].
  - rewrite (strip_blank cur Hc). simpl.
    eexists; split; [reflexivity|].
    rewrite blank_app, Hw. reflexivity.
Qed.

Lemma fold_wrap_blank (w : Z) (words : list string) :
  Forall (fun x => blank x = true) words ->
  forall cur, blank cur = true ->
  exists cur', fold_left (wrap_step font_size w) words ([], cur) = ([], cur')
               /\ blank cur' = true.
Proof.
  induction 1 as [|word words Hw _ IH]; intros cur Hc; cbn [fold_left].
  - now exists cur.
  - destruct (wrap_step_blank w cur word Hc Hw) as [cur1 [E1 B1]].
    rewrite E1. now apply IH.
Qed.

Lemma wrap_lines_blank (text : string) (w : Z) :
  blank text = true -> wrap_lines font_size text w = [].
Proof.
  intros H. unfold wrap_lines.
  destruct (fold_wrap_blank w _ (split_space_blank text H) "" eq_refl)
    as [cur [E B]].
  rewrite E, (strip_blank cur B). reflexivity.
Qed.

Lemma slice_length {A : Type} (l : list A) (i : nat) :
  (List.length (slice l i (i + lines_per_page)) <= lines_per_page)%nat.
Proof.
  unfold slice. rewrite length_firstn. lia.
Qed.

Lemma wrap_text_cases (text : string) (w : Z) :
  _wrap_text font_size text w = placeholder
  \/ _wrap_text font_size text w =
       map (fun i => slice (wrap_lines font_size text w) i (i + lines_per_page))
         (range_step (List.length (wrap_lines font_size text w)) lines_per_page).
Proof.
  unfold _wrap_text.
  destruct (map _ _); [left | right]; reflexivity.
Qed.

Lemma wrap_text_not_nil (text : string) (w : Z) :
  _wrap_text font_size text w <> [].
Proof.
  unfold _wrap_text. destruct (map _ _); discriminate.
Qed.

Lemma wrap_text_page_size (text : string) (w : Z) :
  Forall (fun p : page => (List.length p <= 4)%nat)
    (_wrap_text font_size text w).
Proof.
  destruct (wrap_text_cases text w) as [E | E]; rewrite E.
  - unfold placeholder. constructor; [simpl; lia | constructor].
  - apply Forall_map, Forall_forall. intros i _.
    apply (slice_length (wrap_lines font_size text w) i).
Qed.

Lemma wrap_text_blank (text : string) (w : Z) :
  blank text = true ->
  _wrap_text font_size text w = [["No dialogue available."]].
Proof.
  intros H. unfold _wrap_text. rewrite (wrap_lines_blank text w H).
  reflexivity.
Qed.

End WithFont.

End WrapFacts.

(* ------------------------------------------------------------------ *)
(** ** The emotion buffer *)

Module DequeFacts.

Import Deque.

Section Buffer.

Variable A : Type.
Implicit Types (d : deque A) (l xs : list A) (x : A).

Lemma lastn_short n l : (List.length l <= n)%nat -> lastn n l = l.
Proof.
  intros H. unfold lastn.
  replace (List.length l - n)%nat with 0%nat by lia. reflexivity.
Qed.

Lemma lastn_length n l :
  (n <= List.length l)%nat -> List.length (lastn n l) = n.
Proof. intros H. unfold lastn. rewrite length_skipn. lia. Qed.

Lemma lastn_app_long n l xs :
  (n <= List.length xs)%nat -> lastn n (l ++ xs) = lastn n xs.
Proof.
  intros H. unfold lastn. rewrite length_app, skipn_app.
  replace (List.length l + List.length xs - n - List.length l)%nat
    with (List.length xs - n)%nat by lia.
  rewrite skipn_all2 by lia. reflexivity.
Qed.

Lemma lastn_snoc n l x :
  lastn n (lastn n l ++ [x]) = lastn n (l ++ [x]).
Proof.
  destruct (Nat.le_gt_cases (List.length l) n) as [H | H].
  - now rewrite (lastn_short n l H).
  - unfold lastn. rewrite !length_app, length_skipn. cbn [List.length].
    replace (List.length l - (List.length l - n) + 1 - n)%nat with 1%nat by lia.
    replace (List.length l + 1 - n)%nat
      with (1 + (List.length l - n))%nat by lia.
    rewrite <- skipn_skipn. f_equal.
    rewrite skipn_app.
    replace (List.length l - n - List.length l)%nat with 0%nat by lia.
    reflexivity.
Qed.

Lemma append_items d x :
  wf d -> items (append d x) = lastn (maxlen d) (items d ++ [x]).
Proof.
  unfold wf, append, lastn. intros H. cbn [items].
  rewrite length_app. cbn [List.length].
  destruct (Nat.ltb_spec (maxlen d) (List.length (items d) + 1)) as [L | L].
  - replace (List.length (items d) + 1 - maxlen d)%nat with 1%nat by lia.
    reflexivity.
  - replace (List.length (items d) + 1 - maxlen d)%nat with 0%nat by lia.
    reflexivity.
Qed.

Lemma append_maxlen d x : maxlen (append d x) = maxlen d.
Proof. reflexivity. Qed.

Lemma append_wf d x : wf d -> wf (append d x).
Proof.
  intros H. unfold wf. rewrite (append_items d x H), append_maxlen.
  unfold lastn. rewrite length_skipn, length_app. cbn [List.length]. lia.
Qed.

Lemma extend_snoc d xs x : extend d (xs ++ [x]) = append (extend d xs) x.
Proof. unfold extend. now rewrite fold_left_app. Qed.

Lemma extend_maxlen d xs : maxlen (extend d xs) = maxlen d.
Proof.
  induction xs as [|x xs IH] using rev_ind.
  - reflexivity.
  - now rewrite extend_snoc, append_maxlen.
Qed.

Lemma extend_wf d xs : wf d -> wf (extend d xs).
Proof.
  intros H. induction xs as [|x xs IH] using rev_ind.
  - exact H.
  - rewrite extend_snoc. now apply append_wf.
Qed.

Lemma extend_items d xs :
  wf d -> items (extend d xs) = lastn (maxlen d) (items d ++ xs).
Proof.
  intros H. induction xs as [|x xs IH] using rev_ind.
  - rewrite app_nil_r. cbn. symmetry. now apply lastn_short.
  - rewrite extend_snoc, (append_items _ x (extend_wf d xs H)).
    rewrite IH, extend_maxlen, lastn_snoc. now rewrite app_assoc.
Qed.

Lemma new_wf n : wf (new (A := A) n).
Proof. unfold wf, new. cbn. lia. Qed.

End Buffer.

End DequeFacts.

(* ------------------------------------------------------------------ *)
(** ** The buffer keeps the last five labels *)

Module BufferClaims.

Import Deque DequeFacts.

(** C4.  A buffer of capacity 5, in any state it can be in, that then
    receives five or more labels holds exactly five labels afterwards, and
    its snapshot [list(d)] is the last five labels pushed, oldest first.
    In particular pushing happy, sad, angry, surprised, fearful, neutral
    into the game's empty buffer leaves sad, angry, surprised, fearful,
    neutral. *)
Theorem buffer_keeps_last_five :
  (forall (d : deque string) (pushes : list string),
      maxlen d = 5%nat -> wf d ->
      (5 <= List.length pushes)%nat ->
      List.length (to_list (extend d pushes)) = 5%nat
      /\ to_list (extend d pushes) = lastn 5 pushes)
  /\ to_list (extend Level.emotions_deque0
                ["happy"; "sad"; "angry"; "surprised"; "fearful"; "neutral"])
     = ["sad"; "angry"; "surprised"; "fearful"; "neutral"].
Proof.
  split; [|reflexivity].
  intros d pushes Hn Hwf Hlen. unfold to_list.
  rewrite (extend_items string d pushes Hwf), Hn.
  rewrite (lastn_app_long string 5 (items d) pushes Hlen).
  split; [|reflexivity].
  now apply lastn_length.
Qed.

Lemma buffer_keeps_last_five_witness :
  List.length (to_list (extend (mk_deque 5 ["angry"; "sad"])
                 ["happy"; "sad"; "angry"; "surprised"; "fearful"; "neutral"; "happy"]))
  = 5%nat
  /\ to_list (extend (mk_deque 5 ["angry"; "sad"])
                ["happy"; "sad"; "angry"; "surprised"; "fearful"; "neutral"; "happy"])
     = lastn 5 ["happy"; "sad"; "angry"; "surprised"; "fearful"; "neutral"; "happy"].
Proof.
  apply (proj1 buffer_keeps_last_five).
  - reflexivity.
  - unfold wf; simpl; lia.
  - simpl; lia.
Defined.

End BufferClaims.

(* ------------------------------------------------------------------ *)
(** ** The dialogue client *)

Module ClientFacts.

Import PyStr AIDialogue.

Lemma fallback_not_empty (character_name player_context emotion : string) :
  truthy (_get_fallback_dialogue character_name player_context emotion) = true.
Proof.
  unfold _get_fallback_dialogue.
  repeat match goal with
         | |- context [if ?b then _ else _] => destruct b
         end; reflexivity.
Qed.

Lemma generate_keeps_manager (remote : remote_service)
    (self : AIDialogueManager) (n r c e : string) :
  fst (generate_npc_dialogue remote self n r c e) = self.
Proof.
  unfold generate_npc_dialogue.
  destruct (fallback_mode self), (mgr_client self); try reflexivity.
  destruct (remote _) as [|[|[content|] rest]]; reflexivity.
Qed.

Lemma generate_offline (remote : remote_service)
    (self : AIDialogueManager) (n r c e : string) :
  online self = false ->
  generate_npc_dialogue remote self n r c e
  = (self, Returns (_get_fallback_dialogue n c e)).
Proof.
  unfold online, generate_npc_dialogue.
  destruct (fallback_mode self), (mgr_client self);
    simpl; intros H; try reflexivity; discriminate.
Qed.

Lemma generate_failed (remote : remote_service)
    (self : AIDialogueManager) (n r c e : string) :
  call_failed (remote (build_request n r c e)) = true ->
  generate_npc_dialogue remote self n r c e
  = (self, Returns (_get_fallback_dialogue n c e)).
Proof.
  unfold call_failed, generate_npc_dialogue.
  destruct (fallback_mode self), (mgr_client self); try reflexivity.
  destruct (remote _) as [|[|[content|] rest]];
    intros H; try reflexivity; discriminate.
Qed.

Lemma generate_answered (remote : remote_service)
    (self : AIDialogueManager) (n r c e content : string)
    (rest : list (option string)) :
  online self = true ->
  remote (build_request n r c e) = ApiResponse (Some content :: rest) ->
  generate_npc_dialogue remote self n r c e
  = (self, Returns (strip content)).
Proof.
  unfold online, generate_npc_dialogue.
  destruct (fallback_mode self), (mgr_client self);
    simpl; intros H E; try discriminate.
  now rewrite E.
Qed.

Lemma generate_returns (remote : remote_service)
    (self : AIDialogueManager) (n r c e : string) :
  exists text, generate_npc_dialogue remote self n r c e = (self, Returns text).
Proof.
  unfold generate_npc_dialogue.
  destruct (fallback_mode self), (mgr_client self);
    try (eexists; reflexivity).
  destruct (remote _) as [|[|[content|] rest]]; eexists; reflexivity.
Qed.

End ClientFacts.

Module ClientClaims.

Import PyStr AIDialogue ClientFacts Samples.

(** C3, as stated, fails: with API access and a response whose content
    is blank, the call returns the empty string. *)
Lemma generate_can_return_empty :
  online online_manager = true
  /\ snd (generate_npc_dialogue blank_service online_manager
            "Merchant Pete" "friendly trader"
            "player is making steady progress with their farm" "neutral")
     = Returns "".
Proof. split; reflexivity. Qed.

(** C3, amended.  For every manager, service and arguments the call
    returns a string and raises nothing.  Offline, and online whenever the
    remote call raises or its response carries no content string, the
    string is the fallback line, which is not empty.  Online with a
    content string in the response, the string is that content stripped. *)
Theorem generate_returns_text (remote : remote_service)
    (self : AIDialogueManager) (n r c e : string) :
  exists text,
    snd (generate_npc_dialogue remote self n r c e) = Returns text
    /\ (online self = false
        \/ call_failed (remote (build_request n r c e)) = true ->
        text = _get_fallback_dialogue n c e /\ truthy text = true)
    /\ (forall content rest,
           online self = true ->
           remote (build_request n r c e) = ApiResponse (Some content :: rest) ->
           text = strip content).
Proof.
  destruct (generate_returns remote self n r c e) as [text E].
  exists text. rewrite E. split; [reflexivity|]. split.
  - intros [H | H].
    + rewrite (generate_offline remote self n r c e H) in E.
      injection E as <-. split; [reflexivity | apply fallback_not_empty].
    + rewrite (generate_failed remote self n r c e H) in E.
      injection E as <-. split; [reflexivity | apply fallback_not_empty].
  - intros content rest H R.
    rewrite (generate_answered remote self n r c e content rest H R) in E.
    now injection E as <-.
Qed.

Lemma generate_returns_text_witness :
  exists text,
    snd (generate_npc_dialogue dead_service online_manager
           "Merchant Pete" "trader" "player is just starting out" "neutral")
    = Returns text
    /\ text = "Hello there! New to farming? Don't worry, I've got just the tools and seeds to get you started on your adventure!"
    /\ truthy text = true.
Proof.
  destruct (generate_returns_text dead_service online_manager
              "Merchant Pete" "trader" "player is just starting out" "neutral")
    as [text [E [F _]]].
  exists text. split; [exact E|].
  apply F. right. reflexivity.
Defined.

(** C6.  With a manager that has API access, a call whose remote request
    fails returns the fallback line and leaves the manager as it was:
    [fallback_mode] is still off and the client is still there, so the
    next call goes to the service again and returns its answer.  Whatever
    the service does, the manager after the call is the manager before
    it. *)
Theorem failed_call_keeps_mode (remote next_remote : remote_service)
    (self : AIDialogueManager) (n r c e : string)
    (content : string) (rest : list (option string)) :
  online self = true ->
  call_failed (remote (build_request n r c e)) = true ->
  next_remote (build_request n r c e) = ApiResponse (Some content :: rest) ->
  let self' := fst (generate_npc_dialogue remote self n r c e) in
  snd (generate_npc_dialogue remote self n r c e)
    = Returns (_get_fallback_dialogue n c e)
  /\ self' = self
  /\ fallback_mode self' = false
  /\ self' = fst (generate_npc_dialogue next_remote self n r c e)
  /\ generate_npc_dialogue next_remote self' n r c e
     = (self, Returns (strip content)).
Proof.
  intros Hon Hfail Hnext. cbv zeta.
  rewrite (generate_failed remote self n r c e Hfail). cbn [fst snd].
  rewrite (generate_keeps_manager next_remote self n r c e).
  repeat split.
  - unfold online in Hon. now destruct (fallback_mode self).
  - exact (generate_answered next_remote self n r c e content rest Hon Hnext).
Qed.

Lemma failed_call_keeps_mode_witness :
  snd (generate_npc_dialogue dead_service online_manager
         "Merchant Pete" "friendly trader" "player is rich" "neutral")
    = Returns (_get_fallback_dialogue "Merchant Pete" "player is rich" "neutral")
  /\ fallback_mode
       (fst (generate_npc_dialogue dead_service online_manager
               "Merchant Pete" "friendly trader" "player is rich" "neutral"))
     = false.
Proof.
  destruct (failed_call_keeps_mode dead_service greeting_service
              online_manager "Merchant Pete" "friendly trader"
              "player is rich" "neutral" " Fresh seeds today! " []
              eq_refl eq_refl eq_refl) as [H1 [_ [H3 _]]].
  split; [exact H1 | exact H3].
Defined.

(** C7.  With no credentials file, with a file that is not JSON, or with
    a JSON object that lacks the API key or the base URL, the constructor
    ends in offline mode: [fallback_mode] is on and no client was built.
    Each exception of the loading code is one of the cases of
    [cred_file], and [init] gives a manager for all of them. *)
Theorem bad_credentials_give_offline (openai_imported : bool)
    (f : cred_file) (ctor_ok : credentials -> bool) :
  unusable f ->
  fallback_mode (init openai_imported f ctor_ok) = true
  /\ mgr_client (init openai_imported f ctor_ok) = None
  /\ online (init openai_imported f ctor_ok) = false.
Proof.
  intros H.
  assert (L : _load_api_credentials f = None).
  { destruct H as [-> | [-> | [fields [-> [K | U]]]]]; try reflexivity.
    - unfold _load_api_credentials, data_get. now rewrite K.
    - unfold _load_api_credentials, data_get. rewrite U.
      cbn [json_truthy]. now rewrite orb_true_r. }
  unfold init, online. destruct openai_imported; cbn [negb]; [|now repeat split].
  rewrite L. now repeat split.
Qed.

Lemma bad_credentials_give_offline_witness :
  fallback_mode (init true (Parsed (JObj [("base_url", JStr "https://api.example.org/v1")]))
                   (fun _ => true)) = true
  /\ mgr_client (init true (Parsed (JObj [("base_url", JStr "https://api.example.org/v1")]))
                   (fun _ => true)) = None
  /\ online (init true (Parsed (JObj [("base_url", JStr "https://api.example.org/v1")]))
               (fun _ => true)) = false.
Proof.
  apply bad_credentials_give_offline.
  right; right. eexists. split; [reflexivity|]. left. reflexivity.
Defined.

End ClientClaims.

(* ------------------------------------------------------------------ *)
(** ** Dialogue sessions *)

Module SessionFacts.

Import PyStr AIDialogue Dialogue ClientFacts WrapFacts.

Lemma end_dialogue_result (s : DialogueSystem) :
  end_dialogue s
  = (mk_system false [] 0 None (ai_enabled s) (ai_manager s),
     called (on_finish_callback s)).
Proof.
  unfold end_dialogue. cbn [on_finish_callback].
  destruct (on_finish_callback s); reflexivity.
Qed.

Lemma end_dialogue_at_rest (s : DialogueSystem) :
  active s = false -> at_rest s -> end_dialogue s = (s, []).
Proof.
  intros Ha [Hd [Hi Hc]]. rewrite end_dialogue_result.
  destruct s as [a d i c e m]; cbn in *; subst. reflexivity.
Qed.

Lemma next_line_at_rest (s : DialogueSystem) :
  active s = false -> at_rest s -> next_line s = (s, []).
Proof.
  intros Ha [Hd [Hi Hc]].
  destruct s as [a d i c e m]; cbn in *; subst. reflexivity.
Qed.

Lemma next_line_last (s : DialogueSystem) :
  (dialogue_index s + 1 = List.length (current_dialogue s))%nat ->
  next_line s
  = (mk_system false [] 0 None (ai_enabled s) (ai_manager s),
     called (on_finish_callback s)).
Proof.
  intros H. unfold next_line. cbn [current_dialogue dialogue_index].
  rewrite <- H, Nat.leb_refl. now rewrite end_dialogue_result.
Qed.

Section WithFont.

Variable font_size : string -> Z.

Lemma start_dialogue_result (remote : remote_service)
    (s : DialogueSystem) (cid : string) (ctx : context)
    (cb : option callback) :
  exists text mgr,
    dialogue_text remote s cid ctx = Returns text
    /\ start_dialogue font_size remote s cid ctx cb
       = (mk_system true (_wrap_text font_size text 1160) 0 cb
            (ai_enabled s) mgr, [], true).
Proof.
  unfold dialogue_text, start_dialogue.
  destruct (if ai_enabled s then ai_manager s else None) as [mgr|].
  - destruct (generate_returns remote mgr
                (get_default (npc_name ctx) "NPC")
                (get_default (npc_role ctx) "character")
                (get_default (situation ctx) "meeting you")
                (get_default (emotion ctx) "neutral")) as [text E].
    rewrite E. exists text, (Some mgr). split; [reflexivity|].
    cbn [current_dialogue].
    change (text_box_width - 40)%Z with 1160%Z.
    destruct (_wrap_text font_size text 1160) eqn:W; [|reflexivity].
    now apply wrap_text_not_nil in W.
  - exists (_get_static_fallback cid), (ai_manager s).
    split; [reflexivity|].
    cbn [current_dialogue].
    change (text_box_width - 40)%Z with 1160%Z.
    destruct (_wrap_text font_size (_get_static_fallback cid) 1160) eqn:W;
      [|reflexivity].
    now apply wrap_text_not_nil in W.
Qed.

Lemma start_dialogue_active (remote : remote_service)
    (s : DialogueSystem) (cid : string) (ctx : context)
    (cb : option callback) :
  active (fst (fst (start_dialogue font_size remote s cid ctx cb))) = true.
Proof.
  destruct (start_dialogue_result remote s cid ctx cb) as [t [m [_ E]]].
  now rewrite E.
Qed.

(** An idle box is always at rest. *)
Lemma reachable_idle (s : DialogueSystem) :
  reachable font_size s -> active s = false -> at_rest s.
Proof.
  induction 1 as [setting av imp f ok | s o R IH]; intros Ha.
  - now repeat split.
  - destruct o as [remote cid ctx cb | |]; cbn [run_op] in *.
    + rewrite start_dialogue_active in Ha. discriminate.
    + unfold next_line in *.
      cbn [current_dialogue dialogue_index] in *.
      destruct (Nat.leb_spec (List.length (current_dialogue s))
                  (dialogue_index s + 1)) as [L | L].
      * rewrite end_dialogue_result. now repeat split.
      * cbn [fst active] in Ha. destruct (IH Ha) as [Hd _].
        rewrite Hd in L. cbn in L. lia.
    + rewrite end_dialogue_result. now repeat split.
Qed.

End WithFont.

End SessionFacts.

Module SessionClaims.

Import PyStr AIDialogue Dialogue ClientFacts WrapFacts SessionFacts Samples.

(** C9.  For every text and width the page list of [_wrap_text] is not
    empty and no page has more than four lines; for a text that is empty
    or all white space it is the single page with the single line
    "No dialogue available.".  So after [start_dialogue] the box is
    active, its page list is not empty, and the page at the current index
    exists. *)
Theorem wrap_text_pages (font_size : string -> Z) (text : string)
    (max_width : Z) :
  _wrap_text font_size text max_width <> []
  /\ Forall (fun p : page => (List.length p <= 4)%nat)
       (_wrap_text font_size text max_width)
  /\ (blank text = true ->
      _wrap_text font_size text max_width = [["No dialogue available."]])
  /\ (forall remote s cid ctx cb,
         let s' := fst (fst (start_dialogue font_size remote s cid ctx cb)) in
         active s' = true
         /\ current_dialogue s' <> []
         /\ exists p, nth_error (current_dialogue s') (dialogue_index s') = Some p).
Proof.
  split; [apply wrap_text_not_nil|].
  split; [apply wrap_text_page_size|].
  split; [apply wrap_text_blank|].
  intros remote s cid ctx cb s'. subst s'.
  destruct (start_dialogue_result font_size remote s cid ctx cb)
    as [t [m [_ E]]].
  rewrite E. cbn [fst active current_dialogue dialogue_index].
  split; [reflexivity|]. split; [apply wrap_text_not_nil|].
  destruct (_wrap_text font_size t 1160) as [|p ps] eqn:W.
  - now apply wrap_text_not_nil in W.
  - now exists p.
Qed.

Lemma wrap_text_pages_witness :
  blank "  " = true
  /\ _wrap_text fixed_font "  " 1160 = [["No dialogue available."]].
Proof.
  split; [reflexivity|].
  apply (proj1 (proj2 (proj2 (wrap_text_pages fixed_font "  " 1160)))).
  reflexivity.
Defined.

(** C1, as stated, fails: the service answers with white space only, the
    generated text is empty, and after [start_dialogue] the box is still
    active, shows the placeholder page, and has called nothing. *)
Lemma blank_text_leaves_session_active :
  dialogue_text Samples.blank_service online_box "trader" trader_context
    = Returns ""
  /\ active (fst (fst (start_dialogue fixed_font Samples.blank_service
                         online_box "trader" trader_context
                         (Some open_trader_menu)))) = true
  /\ snd (fst (start_dialogue fixed_font Samples.blank_service
                 online_box "trader" trader_context
                 (Some open_trader_menu))) = [].
Proof. repeat split; reflexivity. Qed.

(** C1, amended.  When the text obtained by [start_dialogue] is empty or
    all white space, the box stays active on the single placeholder page
    "No dialogue available." with the callback stored and not called; the
    first [next_line] then ends the session and calls the callback exactly
    once. *)
Theorem blank_text_shows_placeholder (font_size : string -> Z)
    (remote : remote_service) (s : DialogueSystem) (cid : string)
    (ctx : context) (cb : option callback) (text : string) :
  dialogue_text remote s cid ctx = Returns text ->
  blank text = true ->
  exists s',
    start_dialogue font_size remote s cid ctx cb = (s', [], true)
    /\ active s' = true
    /\ current_dialogue s' = [["No dialogue available."]]
    /\ dialogue_index s' = 0%nat
    /\ on_finish_callback s' = cb
    /\ active (fst (next_line s')) = false
    /\ snd (next_line s') = called cb.
Proof.
  intros T B.
  destruct (start_dialogue_result font_size remote s cid ctx cb)
    as [t [m [T' E]]].
  rewrite T in T'. injection T' as <-.
  rewrite (wrap_text_blank font_size text 1160 B) in E.
  eexists. split; [exact E|].
  cbn [active current_dialogue dialogue_index on_finish_callback].
  repeat split; rewrite next_line_last by reflexivity; reflexivity.
Qed.

Lemma blank_text_shows_placeholder_witness :
  exists s',
    start_dialogue fixed_font Samples.blank_service online_box
      "trader" trader_context (Some open_trader_menu) = (s', [], true)
    /\ active s' = true
    /\ current_dialogue s' = [["No dialogue available."]]
    /\ snd (next_line s') = [open_trader_menu].
Proof.
  destruct (blank_text_shows_placeholder fixed_font
              Samples.blank_service online_box "trader" trader_context
              (Some open_trader_menu) "" eq_refl eq_refl)
    as [s' [E [A [D [_ [_ [_ N]]]]]]].
  exists s'. repeat split; assumption.
Defined.

(** C8.  For a box in use: when it is active on its last page,
    [next_line] makes it inactive and calls the stored callback exactly
    once; a second [next_line] changes nothing and calls nothing; and on
    an inactive box [end_dialogue] (and [next_line]) changes nothing and
    calls nothing. *)
Theorem last_page_advance_ends_once (font_size : string -> Z)
    (s : DialogueSystem) :
  reachable font_size s ->
  (active s = true ->
   (dialogue_index s + 1 = List.length (current_dialogue s))%nat ->
   active (fst (next_line s)) = false
   /\ snd (next_line s) = called (on_finish_callback s)
   /\ next_line (fst (next_line s)) = (fst (next_line s), [])
   /\ end_dialogue (fst (next_line s)) = (fst (next_line s), []))
  /\ (active s = false ->
      end_dialogue s = (s, []) /\ next_line s = (s, [])).
Proof.
  intros R. split.
  - intros _ L. rewrite (next_line_last s L). cbn [fst snd active].
    repeat split.
  - intros Ha. pose proof (reachable_idle font_size s R Ha) as Rest.
    split; [now apply end_dialogue_at_rest | now apply next_line_at_rest].
Qed.

Lemma last_page_advance_ends_once_witness :
  active (fst (next_line
                 (run_op fixed_font online_box
                    (OpStart Samples.greeting_service "trader"
                       trader_context (Some open_trader_menu))))) = false
  /\ snd (next_line
            (run_op fixed_font online_box
               (OpStart Samples.greeting_service "trader"
                  trader_context (Some open_trader_menu))))
     = [open_trader_menu]
  /\ end_dialogue online_box = (online_box, []).
Proof.
  pose proof (last_page_advance_ends_once fixed_font
                (run_op fixed_font online_box
                   (OpStart Samples.greeting_service "trader"
                      trader_context (Some open_trader_menu)))
                (reach_op fixed_font _ _
                   (reach_init fixed_font true true true _ _))) as [H _].
  pose proof (last_page_advance_ends_once fixed_font online_box
                (reach_init fixed_font true true true _ _)) as [_ K].
  destruct (H eq_refl eq_refl) as [H1 [H2 _]].
  destruct (K eq_refl) as [K1 _].
  split; [exact H1|]. split; [exact H2 | exact K1].
Defined.

End SessionClaims.

(* ------------------------------------------------------------------ *)
(** ** The box after [start_dialogue] *)

Module LevelFacts.

Import PyStr AIDialogue Dialogue ClientSpec WrapFacts.

Lemma generate_expected (remote : remote_service) (mgr : AIDialogueManager)
    (n r c e : string) :
  generate_npc_dialogue remote mgr n r c e
  = (mgr, Returns (expected_text remote mgr n r c e)).
Proof.
  unfold generate_npc_dialogue, expected_text, online, build_request.
  destruct (fallback_mode mgr), (mgr_client mgr); cbn [negb andb];
    try reflexivity.
  destruct (remote _) as [|[|[content|] rest]]; reflexivity.
Qed.

Section WithFont.

Variable font_size : string -> Z.

Lemma start_dialogue_manager (remote : remote_service) (s : DialogueSystem)
    (cid : string) (ctx : context) (cb : option callback)
    (mgr : AIDialogueManager) :
  (if ai_enabled s then ai_manager s else None) = Some mgr ->
  start_dialogue font_size remote s cid ctx cb
  = (mk_system true
       (_wrap_text font_size
          (expected_text remote mgr
             (get_default (npc_name ctx) "NPC")
             (get_default (npc_role ctx) "character")
             (get_default (situation ctx) "meeting you")
             (get_default (emotion ctx) "neutral")) 1160)
       0 cb (ai_enabled s) (Some mgr), [], true).
Proof.
  intros H. unfold start_dialogue. rewrite H, generate_expected.
  cbn [current_dialogue]. change (text_box_width - 40)%Z with 1160%Z.
  destruct (_wrap_text font_size _ 1160) eqn:W; [|reflexivity].
  now apply wrap_text_not_nil in W.
Qed.

Lemma start_dialogue_static (remote : remote_service) (s : DialogueSystem)
    (cid : string) (ctx : context) (cb : option callback) :
  (if ai_enabled s then ai_manager s else None) = None ->
  start_dialogue font_size remote s cid ctx cb
  = (mk_system true (_wrap_text font_size (_get_static_fallback cid) 1160)
       0 cb (ai_enabled s) (ai_manager s), [], true).
Proof.
  intros H. unfold start_dialogue. rewrite H.
  cbn [current_dialogue]. change (text_box_width - 40)%Z with 1160%Z.
  destruct (_wrap_text font_size _ 1160) eqn:W; [|reflexivity].
  now apply wrap_text_not_nil in W.
Qed.

End WithFont.

End LevelFacts.

(* ------------------------------------------------------------------ *)
(** ** The trader's context *)

Module LevelClaims.

Import PyStr AIDialogue Dialogue Level.

(** C2, evaluated on the code: after happy and then sad were pushed,
    [toggle_shop] puts "happy", the oldest label of the buffer, into the
    context, although the last label pushed is "sad". *)
Theorem shop_sends_oldest_label (rnd : nat) (m : Z) (ds : DialogueSystem) :
  let d := Deque.extend emotions_deque0 ["happy"; "sad"] in
  context_emotion rnd (mk_level d m ds) = Some "happy"
  /\ last (Deque.to_list d) "" = "sad"
  /\ fst (shop_context rnd (mk_level d m ds)) = d.
Proof. repeat split. Qed.

(** With a buffer that is not empty the context always gets the label
    at the left end, the oldest one. *)
Lemma shop_sends_head (rnd : nat) (self : Level.Level) (e : string)
    (rest : list string) :
  Deque.items (emotions_deque self) = e :: rest ->
  context_emotion rnd self = Some e.
Proof.
  intros H. unfold context_emotion, shop_context, Deque.truthy, Deque.to_list.
  rewrite H. reflexivity.
Qed.

Lemma random_choice_in (rnd : nat) : In (random_choice rnd test_emotions) test_emotions.
Proof.
  unfold random_choice. apply nth_In.
  apply Nat.mod_upper_bound. discriminate.
Qed.

(** C10.  When the buffer (capacity 5) is empty at the start of
    [toggle_shop], the buffer afterwards holds exactly one label, taken
    from happy, surprised, neutral, excited, and that label is the emotion
    of the context, which is handed to [start_dialogue]: with a manager in
    use, the box afterwards is active on the pages of the text the client
    gives for Merchant Pete, the situation and that label (the answer of
    the service to the request carrying the label, or the fallback line of
    the label); without one it is active on the static trader line.  The
    label can be "excited", which is none of the six labels of
    [emotion_guidance]; the client then uses the hint of "neutral". *)
Theorem empty_buffer_gets_test_emotion (font_size : string -> Z)
    (remote : remote_service) (rnd : nat) (m : Z) (ds : DialogueSystem) :
  let self := mk_level (Deque.mk_deque 5 []) m ds in
  (exists e,
      In e test_emotions
      /\ test_emotions = ["happy"; "surprised"; "neutral"; "excited"]
      /\ Deque.to_list (fst (shop_context rnd self)) = [e]
      /\ Deque.to_list
           (emotions_deque (fst (fst (toggle_shop font_size remote rnd self))))
         = [e]
      /\ context_emotion rnd self = Some e
      /\ (forall mgr sit,
            (if ai_enabled ds then ai_manager ds else None) = Some mgr ->
            situation (snd (shop_context rnd self)) = Some sit ->
            toggle_shop font_size remote rnd self
            = (mk_level (Deque.mk_deque 5 [e]) m
                 (mk_system true
                    (_wrap_text font_size
                       (ClientSpec.expected_text remote mgr "Merchant Pete"
                          "friendly trader" sit e) 1160)
                    0 (Some open_trader_menu) (ai_enabled ds) (Some mgr)),
               [], true))
      /\ ((if ai_enabled ds then ai_manager ds else None) = None ->
          toggle_shop font_size remote rnd self
          = (mk_level (Deque.mk_deque 5 [e]) m
               (mk_system true
                  (_wrap_text font_size (_get_static_fallback "trader") 1160)
                  0 (Some open_trader_menu) (ai_enabled ds) (ai_manager ds)),
             [], true)))
  /\ context_emotion 3 self = Some "excited"
  /\ ~ In "excited" emotion_labels
  /\ List.length emotion_labels = 6%nat
  /\ emotion_hint "excited" = emotion_hint "neutral".
Proof.
  intros self. split.
  - exists (random_choice rnd test_emotions).
    split; [apply random_choice_in|]. split; [reflexivity|].
    split; [reflexivity|]. split; [|split; [reflexivity|split]].
    + unfold toggle_shop.
      destruct (shop_context rnd self) as [d' ctx] eqn:E.
      destruct (start_dialogue font_size remote (dialogue_system self)
                  "trader" ctx (Some open_trader_menu)) as [[ds' fired] ok].
      cbn [fst emotions_deque].
      change d' with (fst (d', ctx)). rewrite <- E. reflexivity.
    + intros mgr sit H S. unfold toggle_shop.
      destruct (shop_context rnd self) as [d' ctx] eqn:E.
      assert (Ed : d' = Deque.mk_deque 5 [random_choice rnd test_emotions])
        by (change d' with (fst (d', ctx)); rewrite <- E; reflexivity).
      assert (Ec : ctx = snd (shop_context rnd self)) by now rewrite E.
      cbn [snd] in S.
      rewrite (LevelFacts.start_dialogue_manager font_size remote
                 (dialogue_system self) "trader" ctx (Some open_trader_menu)
                 mgr H).
      rewrite Ed. cbn [money self dialogue_system].
      rewrite S. cbn [get_default].
      rewrite Ec. reflexivity.
    + intros H. unfold toggle_shop.
      destruct (shop_context rnd self) as [d' ctx] eqn:E.
      assert (Ed : d' = Deque.mk_deque 5 [random_choice rnd test_emotions])
        by (change d' with (fst (d', ctx)); rewrite <- E; reflexivity).
      rewrite (LevelFacts.start_dialogue_static font_size remote
                 (dialogue_system self) "trader" ctx (Some open_trader_menu)
                 H).
      now rewrite Ed.
  - split; [reflexivity|]. split; [|split; reflexivity].
    cbn. intros H. repeat (destruct H as [H | H]; [discriminate|]). exact H.
Qed.

Lemma empty_buffer_gets_test_emotion_witness :
  current_dialogue
    (dialogue_system
       (fst (fst (toggle_shop Samples.fixed_font Samples.echo_service 3
                    (mk_level (Deque.mk_deque 5 []) 250 Samples.online_box)))))
  = [["excited"]].
Proof.
  destruct (empty_buffer_gets_test_emotion Samples.fixed_font
              Samples.echo_service 3 250 Samples.online_box)
    as [[e [_ [_ [_ [_ [C [H _]]]]]]] _].
  rewrite (H Samples.online_manager
             "player is making steady progress with their farm"
             eq_refl eq_refl).
  cbn [fst dialogue_system current_dialogue].
  cbv in C. injection C as <-. vm_compute. reflexivity.
Defined.

End LevelClaims.

(* ------------------------------------------------------------------ *)
(** ** Camera acquisition *)

Module CameraFacts.

Import Camera.

Lemma live_app (tr tr' : list event) (open : list Z) :
  live (tr ++ tr') open = live tr' (live tr open).
Proof.
  revert open. induction tr as [|[b|b] tr IH]; intros open; cbn.
  - reflexivity.
  - apply IH.
  - apply IH.
Qed.

Lemma constructed_app (tr tr' : list event) :
  constructed (tr ++ tr') = (constructed tr ++ constructed tr')%list.
Proof. unfold constructed. apply flat_map_app. Qed.

Lemma live_construct_release (b : Z) :
  live [EvConstruct b; EvRelease b] [] = [].
Proof. cbn. now rewrite Z.eqb_refl. Qed.

Section WithDriver.

Variable drv : driver.
Variable idx : Z.

Lemma accepted_opens_and_reads (b : Z) :
  accepted drv idx b = true -> opens_and_reads drv idx b = true.
Proof.
  unfold accepted, opens_and_reads.
  destruct (open_capture drv idx b) as [c|]; [|discriminate].
  destruct (cap_isOpened c) as [[|]|]; try discriminate.
  destruct (cap_read c) as [[[|] [fr|]]|]; try discriminate.
  reflexivity.
Qed.

Lemma try_backend_accepted (b : Z) :
  accepted drv idx b = true ->
  exists c,
    open_capture drv idx b = Returns c
    /\ cap_isOpened c = Returns true
    /\ try_backend drv idx None b = (Some (b, c), true, [EvConstruct b]).
Proof.
  unfold accepted, try_backend.
  destruct (open_capture drv idx b) as [c|]; [|discriminate].
  destruct (cap_isOpened c) as [[|]|] eqn:I; try discriminate.
  destruct (cap_read c) as [[[|] [fr|]]|]; try discriminate.
  destruct (cap_set c) as [u|]; try discriminate.
  intros _. exists c. rewrite I.
  split; [reflexivity | split; reflexivity].
Qed.

Lemma try_backend_rejected (b : Z) :
  accepted drv idx b = false ->
  exists ev,
    try_backend drv idx None b = (None, false, ev)
    /\ live ev [] = []
    /\ constructed ev = (if constructs drv idx b then [b] else []).
Proof.
  unfold accepted, try_backend, constructs.
  destruct (open_capture drv idx b) as [c|].
  - destruct (cap_isOpened c) as [[|]|];
      [destruct (cap_read c) as [[[|] [fr|]]|];
         [destruct (cap_set c) as [u|] | | | | ] | | ];
      intros H; try discriminate;
      (eexists; split; [reflexivity|]; split;
       [apply live_construct_release | reflexivity]).
  - intros _. exists []. repeat split.
Qed.

Lemma acquire_from_spec (bs : list Z) :
  forall cap tr,
    acquire_from drv idx bs None = (cap, tr) ->
    option_map fst cap = find (accepted drv idx) bs
    /\ live tr [] = match cap with Some (b, _) => [b] | None => [] end
    /\ constructed tr = filter (constructs drv idx) (tried drv idx bs)
    /\ (forall b c, cap = Some (b, c) ->
          open_capture drv idx b = Returns c
          /\ cap_isOpened c = Returns true
          /\ accepted drv idx b = true).
Proof.
  induction bs as [|b bs IH]; intros cap tr E; cbn in E.
  - injection E as <- <-.
    do 3 (split; [reflexivity|]). intros b' c' H'; discriminate.
  - cbn [find tried]. destruct (accepted drv idx b) eqn:A.
    + destruct (try_backend_accepted b A) as [c [O [I T]]].
      rewrite T in E. injection E as <- <-.
      cbn [option_map fst]. split; [reflexivity|].
      split; [reflexivity|]. split.
      * cbn. unfold constructs. now rewrite O.
      * intros b' c' H. injection H as <- <-. now repeat split.
    + destruct (try_backend_rejected b A) as [ev [T [L C]]].
      rewrite T in E.
      destruct (acquire_from drv idx bs None) as [cap' tr'] eqn:R.
      injection E as <- <-.
      destruct (IH cap' tr' eq_refl) as [F [L' [C' S]]].
      split; [exact F|]. split.
      * now rewrite live_app, L.
      * split; [|exact S].
        rewrite constructed_app, C, C'. cbn [filter].
        now destruct (constructs drv idx b).
Qed.

Lemma find_none_all (bs : list Z) :
  (forall b, In b bs -> accepted drv idx b = false) ->
  find (accepted drv idx) bs = None.
Proof.
  induction bs as [|b bs IH]; intros H; cbn.
  - reflexivity.
  - rewrite (H b (or_introl eq_refl)). apply IH.
    intros b' Hb. apply H. now right.
Qed.

End WithDriver.

End CameraFacts.

Module CameraMore.

Import Camera CameraSpec CameraFacts.






Section WithDriver.

Variable vdrv : Detector.vdriver.
Variable v : Settings.value.


End WithDriver.

End CameraMore.

Module CameraClaims.

Import Camera Settings Detector CameraSpec CameraFacts CameraMore Samples.




End CameraClaims.

(* ------------------------------------------------------------------ *)
(** ** The model on sample inputs *)

Module Checks.

Import PyStr AIDialogue Dialogue Camera Samples.

Example split_keeps_empty_pieces :
  split_space "a  b " = ["a"; ""; "b"; ""].
Proof. reflexivity. Qed.

Example strip_both_ends : strip "  hi there  " = "hi there".
Proof. reflexivity. Qed.

Example wrap_two_pages :
  _wrap_text fixed_font "one two three four five six seven eight nine ten" 140
  = [["one two"; "three"; "four"; "five six"]; ["seven"; "eight"; "nine ten"]].
Proof. vm_compute. reflexivity. Qed.

Example wrap_long_word :
  _wrap_text fixed_font "supercalifragilisticexpialidocious" 100
  = [["supercalifragilisticexpialidocious"]].
Proof. vm_compute. reflexivity. Qed.

Example acquire_second_backend :
  acquire msmf_only 0
  = (Some (CAP_MSMF, good_capture),
     [EvConstruct CAP_DSHOW; EvRelease CAP_DSHOW; EvConstruct CAP_MSMF]).
Proof. reflexivity. Qed.

Example run_pushes_labels :
  Detector.run (Returns true) Settings.Missing msmf_camera (Returns true)
    [TickLabel "happy"; TickReadFailed; TickLabel "sad"] Level.emotions_deque0
  = Detector.mk_run_result Stopped
      (snd (Scan.detect_available_cameras (Detector.scan_driver msmf_camera)))
      [EvConstruct CAP_DSHOW; EvRelease CAP_DSHOW;
       EvConstruct CAP_MSMF; EvRelease CAP_MSMF]
      (Deque.mk_deque 5 ["happy"; "sad"]).
Proof. reflexivity. Qed.

Example absent_credentials_new_farmer_line :
  generate_npc_dialogue dead_service
    (AIDialogue.init true FileNotFound (fun _ => true))
    "Merchant Pete" "trader" "player is just starting out" "neutral"
  = (mk_manager None true None,
     Returns "Hello there! New to farming? Don't worry, I've got just the tools and seeds to get you started on your adventure!").
Proof. reflexivity. Qed.

End Checks.

(* ------------------------------------------------------------------ *)
(** ** More on strings: [strip] *)

Module StripFacts.

Import PyStr PyStrFacts.

Lemma sapp_nil_r (s : string) : s ++ "" = s.
Proof. induction s as [|c s IH]; simpl; [reflexivity | now rewrite IH]. Qed.

Lemma sapp_assoc (a b c : string) : (a ++ b) ++ c = a ++ (b ++ c).
Proof. induction a as [|x a IH]; simpl; [reflexivity | now rewrite IH]. Qed.

Lemma rev_app (a b : string) : rev (a ++ b) = rev b ++ rev a.
Proof.
  induction a as [|x a IH]; simpl.
  - now rewrite sapp_nil_r.
  - now rewrite IH, sapp_assoc.
Qed.

Lemma blank_rev (s : string) : blank (rev s) = blank s.
Proof.
  induction s as [|c s IH]; simpl; [reflexivity|].
  rewrite blank_app, IH. simpl. rewrite andb_true_r. apply andb_comm.
Qed.

Lemma lstrip_app (a b : string) :
  lstrip (a ++ b) = if blank a then lstrip b else lstrip a ++ b.
Proof.
  induction a as [|c a IH]; simpl; [reflexivity|].
  destruct (is_space c); simpl; [exact IH | reflexivity].
Qed.

(** [rstrip], read from the left. *)
Lemma rstrip_cons (c : ascii) (s : string) :
  rstrip (String c s)
  = if blank s then (if is_space c then "" else String c "")
    else String c (rstrip s).
Proof.
  unfold rstrip. simpl rev. rewrite lstrip_app, blank_rev.
  destruct (blank s).
  - simpl. now destruct (is_space c).
  - now rewrite rev_app.
Qed.

Lemma blank_rstrip (s : string) : blank (rstrip s) = blank s.
Proof.
  induction s as [|c s IH]; [reflexivity|].
  rewrite rstrip_cons. cbn [blank]. destruct (blank s) eqn:B.
  - destruct (is_space c) eqn:C; cbn [blank]; rewrite ?C; reflexivity.
  - cbn [blank]. now rewrite IH.
Qed.

Lemma rstrip_idem (s : string) : rstrip (rstrip s) = rstrip s.
Proof.
  induction s as [|c s IH]; [reflexivity|].
  rewrite rstrip_cons. destruct (blank s) eqn:B.
  - destruct (is_space c) eqn:C; [reflexivity|].
    rewrite rstrip_cons. simpl. now rewrite C.
  - rewrite rstrip_cons, blank_rstrip, B. now rewrite IH.
Qed.

Lemma lstrip_length (s : string) :
  (String.length (lstrip s) <= String.length s)%nat.
Proof.
  induction s as [|c s IH]; simpl; [lia|].
  destruct (is_space c); simpl; lia.
Qed.

(** A string that [lstrip] leaves alone is empty or starts with a
    character that is not white space. *)
Lemma lstrip_fixed_head (c : ascii) (s : string) :
  lstrip (String c s) = String c s -> is_space c = false.
Proof.
  simpl. destruct (is_space c); [|reflexivity].
  intros H. pose proof (lstrip_length s) as L. rewrite H in L.
  simpl in L. lia.
Qed.

Lemma lstrip_idem (s : string) : lstrip (lstrip s) = lstrip s.
Proof.
  induction s as [|c s IH]; simpl; [reflexivity|].
  destruct (is_space c) eqn:C; [exact IH|]. simpl. now rewrite C.
Qed.

Lemma lstrip_rstrip_fixed (t : string) :
  lstrip t = t -> lstrip (rstrip t) = rstrip t.
Proof.
  destruct t as [|c s]; [reflexivity|].
  intros H. apply lstrip_fixed_head in H.
  rewrite rstrip_cons.
  destruct (blank s); rewrite ?H; cbn [lstrip]; rewrite ?H; reflexivity.
Qed.

Lemma strip_idem (s : string) : strip (strip s) = strip s.
Proof.
  unfold strip.
  rewrite (lstrip_rstrip_fixed (lstrip s) (lstrip_idem s)).
  apply rstrip_idem.
Qed.

Lemma strip_empty_iff_blank (s : string) : strip s = "" <-> blank s = true.
Proof.
  split; [|apply strip_blank].
  intros H. unfold strip in H.
  assert (B : blank (rstrip (lstrip s)) = true) by now rewrite H.
  rewrite blank_rstrip in B.
  clear H. induction s as [|c s IH]; [reflexivity|].
  simpl in *. destruct (is_space c) eqn:C; simpl.
  - now apply IH.
  - simpl in B. now rewrite C in B.
Qed.

End StripFacts.

(* ------------------------------------------------------------------ *)
(** ** More on pagination *)

Module WrapMore.

Import PyStr PyStrFacts StripFacts Dialogue WrapFacts WrapSpec.

Lemma firstn_add {A : Type} (a b : nat) (l : list A) :
  firstn (a + b) l = (firstn a l ++ firstn b (skipn a l))%list.
Proof.
  revert l. induction a as [|a IH]; intros l; [reflexivity|].
  destruct l as [|x l]; simpl.
  - now rewrite firstn_nil.
  - now rewrite IH.
Qed.

Lemma in_firstn {A : Type} (n : nat) (l : list A) (x : A) :
  In x (firstn n l) -> In x l.
Proof.
  revert l. induction n as [|n IH]; intros [|y l]; cbn; try tauto.
  intros [H | H]; [now left | right; now apply IH].
Qed.

Lemma in_skipn {A : Type} (n : nat) (l : list A) (x : A) :
  In x (skipn n l) -> In x l.
Proof.
  revert l. induction n as [|n IH]; intros [|y l]; cbn; try tauto.
  intros H. right. now apply IH.
Qed.

Lemma slice_step {A : Type} (l : list A) (i k : nat) :
  slice l i (i + k) = firstn k (skipn i l).
Proof. unfold slice. now replace (i + k - i)%nat with k by lia. Qed.

Lemma concat_slices {A : Type} (l : list A) (k m : nat) :
  List.concat (map (fun i => slice l i (i + k))
            (map (fun j => j * k)%nat (seq 0 m)))
  = firstn (m * k) l.
Proof.
  induction m as [|m IH]; [reflexivity|].
  rewrite seq_S, !map_app, concat_app, IH. cbn [map List.concat Nat.add].
  rewrite app_nil_r, slice_step.
  replace (S m * k)%nat with (m * k + k)%nat by lia.
  now rewrite firstn_add.
Qed.

Lemma pages_cover (n : nat) : (n <= (n + 4 - 1) / 4 * 4)%nat.
Proof.
  pose proof (Nat.div_mod_eq (n + 4 - 1) 4) as E.
  pose proof (Nat.mod_upper_bound (n + 4 - 1) 4) as U. lia.
Qed.

Lemma pages_tight (n j : nat) :
  (j < (n + 4 - 1) / 4)%nat -> (j * 4 < n)%nat.
Proof.
  intros H. pose proof (Nat.div_mod_eq (n + 4 - 1) 4) as E.
  pose proof (Nat.mod_upper_bound (n + 4 - 1) 4) as U. lia.
Qed.

Lemma pages_full (n j : nat) :
  (S j < (n + 4 - 1) / 4)%nat -> (j * 4 + 4 <= n)%nat.
Proof.
  intros H. pose proof (Nat.div_mod_eq (n + 4 - 1) 4) as E.
  pose proof (Nat.mod_upper_bound (n + 4 - 1) 4) as U. lia.
Qed.

Lemma concat_pages {A : Type} (l : list A) :
  List.concat (map (fun i => slice l i (i + lines_per_page))
            (range_step (List.length l) lines_per_page))
  = l.
Proof.
  unfold range_step, lines_per_page. rewrite concat_slices.
  apply firstn_all2, pages_cover.
Qed.

Lemma nth_page {A : Type} (l : list A) (j : nat) (p : list A) :
  nth_error (map (fun i => slice l i (i + lines_per_page))
               (range_step (List.length l) lines_per_page)) j = Some p ->
  (j < (List.length l + 4 - 1) / 4)%nat
  /\ p = firstn 4 (skipn (j * 4) l).
Proof.
  unfold range_step, lines_per_page. rewrite map_map. intros H.
  rewrite nth_error_map, nth_error_seq in H.
  destruct (Nat.ltb_spec j ((List.length l + 4 - 1) / 4)) as [L | L];
    [|discriminate].
  split; [exact L|].
  cbn in H. injection H as <-. apply slice_step.
Qed.

Section WithFont.

Variable font_size : string -> Z.

Lemma wrap_text_of_lines (text : string) (w : Z) :
  wrap_lines font_size text w <> [] ->
  _wrap_text font_size text w
  = map (fun i => slice (wrap_lines font_size text w) i (i + lines_per_page))
      (range_step (List.length (wrap_lines font_size text w)) lines_per_page).
Proof.
  intros H. unfold _wrap_text.
  destruct (map _ _) as [|p ps] eqn:E; [|reflexivity].
  exfalso. apply H.
  rewrite <- (concat_pages (wrap_lines font_size text w)).
  now rewrite E.
Qed.

Lemma wrap_text_no_lines (text : string) (w : Z) :
  wrap_lines font_size text w = [] ->
  _wrap_text font_size text w = placeholder.
Proof. intros H. unfold _wrap_text. now rewrite H. Qed.





(** How the loop treats its lines and its candidate. *)
Lemma wrap_step_ok (words : list string) (w : Z) (lines : list string)
    (cur word : string) :
  In word words ->
  Forall (line_ok font_size words w) lines ->
  cur = "" \/ candidate_ok font_size words w cur ->
  Forall (line_ok font_size words w)
    (fst (wrap_step font_size w (lines, cur) word))
  /\ candidate_ok font_size words w
       (snd (wrap_step font_size w (lines, cur) word)).
Proof.
  intros Hw Hl Hc. unfold wrap_step.
  destruct (Z.ltb_spec (font_size (cur ++ word ++ " ")) w); cbn [fst snd].
  - split; [exact Hl | now left].
  - split; [|right; now exists word].
    destruct (strip cur) as [|c s] eqn:S; cbn [truthy]; [exact Hl|].
    apply Forall_app. split; [exact Hl|].
    constructor; [|constructor]. split; [discriminate|].
    exists cur. split; [now rewrite S|].
    destruct Hc as [-> | Hc]; [discriminate | exact Hc].
Qed.

Lemma fold_wrap_ok (words : list string) (w : Z) (ws : list string) :
  incl ws words ->
  forall lines cur,
    Forall (line_ok font_size words w) lines ->
    cur = "" \/ candidate_ok font_size words w cur ->
    Forall (line_ok font_size words w)
      (fst (fold_left (wrap_step font_size w) ws (lines, cur)))
    /\ (snd (fold_left (wrap_step font_size w) ws (lines, cur)) = ""
        \/ candidate_ok font_size words w
             (snd (fold_left (wrap_step font_size w) ws (lines, cur)))).
Proof.
  induction ws as [|word ws IH]; intros I lines cur Hl Hc; cbn [fold_left].
  - now split.
  - destruct (wrap_step_ok words w lines cur word
                (I word (or_introl eq_refl)) Hl Hc) as [Hl1 Hc1].
    destruct (wrap_step font_size w (lines, cur) word) as [lines1 cur1].
    apply IH; [|exact Hl1 | now right].
    intros x Hx. apply I. now right.
Qed.

Lemma wrap_lines_ok (text : string) (w : Z) :
  Forall (line_ok font_size (split_space text) w)
    (wrap_lines font_size text w).
Proof.
  unfold wrap_lines.
  destruct (fold_wrap_ok (split_space text) w (split_space text)
              (incl_refl _) [] "" (Forall_nil _) (or_introl eq_refl))
    as [Hl Hc].
  destruct (fold_left (wrap_step font_size w) (split_space text) ([], ""))
    as [lines cur]. cbn [fst snd] in *.
  destruct (strip cur) as [|c s] eqn:S; cbn [truthy]; [exact Hl|].
  apply Forall_app. split; [exact Hl|].
  constructor; [|constructor]. split; [discriminate|].
  exists cur. split; [now rewrite S|].
  destruct Hc as [-> | Hc]; [discriminate | exact Hc].
Qed.

Lemma page_line_facts (text : string) (max_width : Z) (p : page)
    (line : string) :
  In p (_wrap_text font_size text max_width) ->
  In line p ->
  line <> "" /\ strip line = line /\ blank line = false.
Proof.
  intros Hp Hl.
  assert (K : line <> "" /\ strip line = line).
  { destruct (wrap_text_cases font_size text max_width) as [E | E];
      rewrite E in Hp.
    - destruct Hp as [<- | []]. destruct Hl as [<- | []].
      split; [discriminate | reflexivity].
    - apply in_map_iff in Hp as [i [<- _]].
      unfold slice in Hl. apply in_firstn, in_skipn in Hl.
      pose proof (wrap_lines_ok text max_width) as A.
      rewrite Forall_forall in A.
      destruct (A line Hl) as [Ne [cur [-> _]]].
      split; [exact Ne | apply strip_idem]. }
  destruct K as [Ne St]. split; [exact Ne|]. split; [exact St|].
  destruct (blank line) eqn:B; [|reflexivity].
  apply strip_empty_iff_blank in B. congruence.
Qed.

End WithFont.

End WrapMore.

Module WrapExtras.

Import PyStr PyStrFacts StripFacts Dialogue WrapFacts WrapSpec WrapMore Samples.


(** X2.  The number of pages is the number of wrapped lines divided by
    four, rounded up, and at least one; no page is empty, and every page
    before the last has exactly four lines. *)
Theorem pages_are_filled (font_size : string -> Z) (text : string)
    (max_width : Z) :
  let pages := _wrap_text font_size text max_width in
  let n := List.length (wrap_lines font_size text max_width) in
  List.length pages = Nat.max 1 ((n + 3) / 4)
  /\ forall j p,
       nth_error pages j = Some p ->
       p <> []
       /\ (List.length p <= 4)%nat
       /\ ((S j < List.length pages)%nat -> List.length p = 4%nat).
Proof.
  intros pages n. subst pages n.
  destruct (wrap_lines font_size text max_width) as [|l ls] eqn:E.
  - rewrite (wrap_text_no_lines font_size text max_width E).
    split; [reflexivity|].
    intros [|j] p H; cbn in H; [|now destruct j].
    injection H as <-. split; [discriminate|]. split; [cbn; lia|].
    cbn. lia.
  - assert (N : wrap_lines font_size text max_width <> []) by now rewrite E.
    rewrite (wrap_text_of_lines font_size text max_width N), E.
    set (lines := l :: ls) in *.
    assert (Len : forall q : list page,
               q = map (fun i => slice lines i (i + lines_per_page))
                     (range_step (List.length lines) lines_per_page) ->
               List.length q = ((List.length lines + 4 - 1) / 4)%nat).
    { intros q ->. unfold range_step, lines_per_page.
      now rewrite !length_map, length_seq. }
    rewrite (Len _ eq_refl).
    replace (List.length lines + 3)%nat
      with (List.length lines + 4 - 1)%nat by lia.
    split.
    + assert (0 < List.length lines)%nat by (subst lines; cbn; lia).
      pose proof (pages_cover (List.length lines)). lia.
    + intros j p H. destruct (nth_page lines j p H) as [L ->].
      pose proof (pages_tight (List.length lines) j L) as T.
      rewrite length_firstn, length_skipn.
      split; [|split; [lia|]].
      * intros Hz. apply (f_equal (@List.length string)) in Hz.
        rewrite length_firstn, length_skipn in Hz.
        change (List.length (@nil string)) with 0%nat in Hz. lia.
      * intros F. pose proof (pages_full (List.length lines) j F). lia.
Qed.

Lemma pages_are_filled_witness :
  List.length
    (_wrap_text fixed_font "one two three four five six seven eight nine ten" 140)
  = 2%nat
  /\ List.length ["one two"; "three"; "four"; "five six"] = 4%nat.
Proof.
  destruct (pages_are_filled fixed_font
              "one two three four five six seven eight nine ten" 140)
    as [H1 H2].
  split; [exact H1|].
  destruct (H2 0%nat ["one two"; "three"; "four"; "five six"] eq_refl)
    as [_ [_ H3]].
  apply H3. vm_compute. lia.
Defined.

(** X3.  Every line on every page is not empty and carries no white space
    at either end: [strip] leaves it as it is. *)
Theorem page_lines_are_stripped (font_size : string -> Z) (text : string)
    (max_width : Z) (p : page) (line : string) :
  In p (_wrap_text font_size text max_width) ->
  In line p ->
  line <> "" /\ strip line = line /\ blank line = false.
Proof. apply WrapMore.page_line_facts. Qed.

Lemma page_lines_are_stripped_witness :
  "five six" <> "" /\ strip "five six" = "five six"
  /\ blank "five six" = false.
Proof.
  apply (page_lines_are_stripped fixed_font
           "one two three four five six seven eight nine ten" 140
           ["one two"; "three"; "four"; "five six"] "five six").
  - vm_compute. left. reflexivity.
  - cbn. tauto.
Defined.

(** X4.  Every wrapped line is the strip of a candidate that the loop
    measured narrower than [max_width], or of a single word of the text
    followed by a space; so when every word with its space is narrower
    than [max_width], every line comes from a candidate that was measured
    narrower than [max_width]. *)
Theorem wrapped_lines_were_measured (font_size : string -> Z)
    (text : string) (max_width : Z) (line : string) :
  In line (wrap_lines font_size text max_width) ->
  line_ok font_size (split_space text) max_width line
  /\ ((forall word, In word (split_space text) ->
         (font_size (word ++ " ") < max_width)%Z) ->
      exists cur, line = strip cur /\ (font_size cur < max_width)%Z).
Proof.
  intros H.
  pose proof (wrap_lines_ok font_size text max_width) as A.
  rewrite Forall_forall in A. specialize (A line H).
  split; [exact A|].
  intros Fit. destruct A as [_ [cur [E [C | [word [I ->]]]]]].
  - now exists cur.
  - exists (word ++ " "). split; [exact E | now apply Fit].
Qed.

Lemma wrapped_lines_were_measured_witness :
  exists cur, "five six" = strip cur /\ (fixed_font cur < 140)%Z.
Proof.
  apply (proj2 (wrapped_lines_were_measured fixed_font
                  "one two three four five six seven eight nine ten" 140
                  "five six"
                  ltac:(vm_compute; tauto))).
  intros word H. vm_compute in H.
  repeat (destruct H as [<- | H]; [reflexivity|]). destruct H.
Defined.

End WrapExtras.

(* ------------------------------------------------------------------ *)
(** ** Keys and drawing *)

Module SessionMore.

Import PyStr PyStrFacts StripFacts AIDialogue Dialogue DialogueUI.
Import ClientFacts WrapFacts WrapMore SessionFacts.

Lemma input_spec (s : DialogueSystem) (events : list pg_event) :
  input s events
  = if existsb is_advance events then (next_line s, true) else (s, [], false).
Proof.
  induction events as [|e events IH]; [reflexivity|].
  destruct e as [k | k | |]; cbn [input existsb is_advance orb]; try exact IH.
  destruct (advances k); [reflexivity | exact IH].
Qed.

Lemma next_line_inner (s : DialogueSystem) :
  (dialogue_index s + 1 < List.length (current_dialogue s))%nat ->
  next_line s = (at_index s (dialogue_index s + 1), []).
Proof.
  intros H. unfold next_line. cbn [current_dialogue dialogue_index].
  destruct (Nat.leb_spec (List.length (current_dialogue s))
              (dialogue_index s + 1)); [lia | reflexivity].
Qed.

Lemma next_line_ends_iff (s : DialogueSystem) :
  active s = true ->
  (active (fst (next_line s)) = false
   <-> (List.length (current_dialogue s) <= dialogue_index s + 1)%nat).
Proof.
  intros A. unfold next_line. cbn [current_dialogue dialogue_index].
  destruct (Nat.leb_spec (List.length (current_dialogue s))
              (dialogue_index s + 1)) as [L | L].
  - rewrite end_dialogue_result. cbn. split; [intros _; exact L | reflexivity].
  - cbn. rewrite A. split; [discriminate | lia].
Qed.

Lemma update_press_inner (s : DialogueSystem) :
  active s = true ->
  (dialogue_index s + 1 < List.length (current_dialogue s))%nat ->
  fst (update s (Some [KEYDOWN K_RETURN]))
  = (at_index s (dialogue_index s + 1), []).
Proof.
  intros A H. unfold update. rewrite A. cbn [input advances fst].
  now rewrite (next_line_inner s H).
Qed.

Lemma update_press_last (s : DialogueSystem) :
  active s = true ->
  (dialogue_index s + 1 = List.length (current_dialogue s))%nat ->
  update s (Some [KEYDOWN K_RETURN])
  = (ended s, called (on_finish_callback s), None).
Proof.
  intros A H. unfold update. rewrite A. cbn [input advances fst].
  now rewrite (next_line_last s H).
Qed.

Lemma press_inner (k : nat) :
  forall s,
    active s = true ->
    (dialogue_index s + k < List.length (current_dialogue s))%nat ->
    press k s = (at_index s (dialogue_index s + k), []).
Proof.
  induction k as [|k IH]; intros s A H.
  - cbn. rewrite Nat.add_0_r. now destruct s.
  - cbn [press].
    assert (H1 : (dialogue_index s + 1 < List.length (current_dialogue s))%nat)
      by lia.
    pose proof (update_press_inner s A H1) as U.
    destruct (update s (Some [KEYDOWN K_RETURN])) as [[s1 f1] d1].
    cbn [fst] in U. injection U as -> ->.
    rewrite IH; cbn [at_index active current_dialogue dialogue_index];
      [|exact A | lia].
    unfold at_index. cbn. do 2 f_equal. lia.
Qed.

Lemma press_idle (k : nat) (s : DialogueSystem) :
  active s = false -> press k s = (s, []).
Proof.
  intros A. induction k as [|k IH]; [reflexivity|].
  cbn [press]. unfold update. rewrite A. now rewrite IH.
Qed.

Lemma press_to_end (k : nat) :
  forall s m,
    active s = true ->
    (dialogue_index s + k + 1 = List.length (current_dialogue s))%nat ->
    press (k + 1 + m) s = (ended s, called (on_finish_callback s)).
Proof.
  induction k as [|k IH]; intros s m A H.
  - cbn [Nat.add press].
    rewrite (update_press_last s A) by lia.
    rewrite press_idle by reflexivity. now rewrite app_nil_r.
  - cbn [Nat.add press].
    assert (H1 : (dialogue_index s + 1
                  < List.length (current_dialogue s))%nat) by lia.
    pose proof (update_press_inner s A H1) as U.
    destruct (update s (Some [KEYDOWN K_RETURN])) as [[s1 f1] d1].
    cbn [fst] in U. injection U as -> ->.
    rewrite IH; cbn [at_index active current_dialogue dialogue_index
                       on_finish_callback ai_enabled ai_manager];
      [reflexivity | exact A | lia].
Qed.

Section WithFont.

Variable font_size : string -> Z.

(** The pages of a box in use hold no blank line. *)
Lemma reachable_lines (s : DialogueSystem) :
  reachable font_size s ->
  forall p line, In p (current_dialogue s) -> In line p -> blank line = false.
Proof.
  induction 1 as [setting av imp f ok | s o R IH]; intros p line Hp Hl.
  - destruct Hp.
  - destruct o as [remote cid ctx cb | |]; cbn [run_op] in *.
    + destruct (start_dialogue_result font_size remote s cid ctx cb)
        as [t [m [_ E]]].
      rewrite E in Hp. cbn [fst current_dialogue] in Hp.
      now apply (page_line_facts font_size t 1160 p line Hp Hl).
    + unfold next_line in Hp. cbn [current_dialogue dialogue_index] in Hp.
      destruct (_ <=? _)%nat.
      * rewrite end_dialogue_result in Hp. destruct Hp.
      * now apply (IH p line).
    + rewrite end_dialogue_result in Hp. destruct Hp.
Qed.

End WithFont.

Lemma filter_enumerate_all (p : list string) :
  (forall line, In line p -> blank line = false) ->
  forall start,
    filter (fun il : nat * string => truthy (strip (snd il)))
      (combine (seq start (List.length p)) p)
    = combine (seq start (List.length p)) p.
Proof.
  induction p as [|line p IH]; intros H start; [reflexivity|].
  cbn [List.length seq combine filter snd].
  destruct (strip line) as [|c t] eqn:S.
  - apply strip_empty_iff_blank in S.
    rewrite (H line (or_introl eq_refl)) in S. discriminate.
  - cbn [truthy]. f_equal. apply IH. intros l Hl. apply H. now right.
Qed.

Lemma filter_enumerate (p : list string) :
  (forall line, In line p -> blank line = false) ->
  filter (fun il : nat * string => truthy (strip (snd il))) (enumerate p)
  = enumerate p.
Proof. intros H. apply (filter_enumerate_all p H). Qed.

Lemma map_fst_enumerate {A : Type} (p : list A) :
  map fst (enumerate p) = seq 0 (List.length p).
Proof.
  unfold enumerate. generalize 0%nat.
  induction p as [|x p IH]; intros start; [reflexivity|].
  cbn. now rewrite IH.
Qed.

Lemma map_snd_enumerate {A : Type} (p : list A) :
  map snd (enumerate p) = p.
Proof.
  unfold enumerate. generalize 0%nat.
  induction p as [|x p IH]; intros start; [reflexivity|].
  cbn. now rewrite IH.
Qed.

End SessionMore.

Module SessionExtras.

Import PyStr AIDialogue Dialogue DialogueUI SessionFacts SessionMore Samples.

(** X5.  [input] advances the dialogue by one page when the events of the
    frame hold at least one SPACE or RETURN key press, however many they
    hold, and reports the input as consumed; otherwise it leaves the box as
    it is, calls nothing and reports nothing consumed. *)
Theorem input_advances_once (s : DialogueSystem) (events : list pg_event) :
  input s events
  = if existsb is_advance events then (next_line s, true) else (s, [], false).
Proof. apply input_spec. Qed.

(** X6.  From a box that is active on page [i] of [n], every number [k]
    of presses of RETURN with [i + k < n] leads to page [i + k] and calls
    nothing; the press on the last page, the one that makes [n - i]
    presses, ends the session and calls the stored callback once; every
    further press changes nothing and calls nothing. *)
Theorem presses_walk_the_pages (s : DialogueSystem) (k extra : nat) :
  active s = true ->
  (dialogue_index s + k < List.length (current_dialogue s))%nat ->
  press k s = (at_index s (dialogue_index s + k), [])
  /\ press (List.length (current_dialogue s) - dialogue_index s) s
     = (ended s, called (on_finish_callback s))
  /\ press (List.length (current_dialogue s) - dialogue_index s + extra) s
     = (ended s, called (on_finish_callback s)).
Proof.
  intros A H.
  split; [now apply press_inner|].
  set (n := List.length (current_dialogue s)) in *.
  set (i := dialogue_index s) in *.
  assert (E : forall m, (n - i + m = (n - i - 1) + 1 + m)%nat) by (intros; lia).
  split.
  - replace (n - i)%nat with (n - i + 0)%nat by lia.
    rewrite E. apply press_to_end; [exact A | subst n i; lia].
  - rewrite E. apply press_to_end; [exact A | subst n i; lia].
Qed.

Lemma presses_walk_the_pages_witness :
  press 1 (mk_system true [["a"]; ["b"]; ["c"]] 0 (Some open_trader_menu)
             false None)
  = (mk_system true [["a"]; ["b"]; ["c"]] 1 (Some open_trader_menu)
       false None, [])
  /\ press 3 (mk_system true [["a"]; ["b"]; ["c"]] 0 (Some open_trader_menu)
                false None)
     = (mk_system false [] 0 None false None, [open_trader_menu])
  /\ press 7 (mk_system true [["a"]; ["b"]; ["c"]] 0 (Some open_trader_menu)
                false None)
     = (mk_system false [] 0 None false None, [open_trader_menu]).
Proof.
  apply (presses_walk_the_pages
           (mk_system true [["a"]; ["b"]; ["c"]] 0 (Some open_trader_menu)
              false None)
           1 4); [reflexivity | cbn; lia].
Defined.

(** X7.  On an active box the prompt drawn tells what the next key press
    does: it reads "Press ENTER to finish..." exactly when [next_line]
    ends the session, and "Press ENTER to continue..." exactly when it
    does not. *)
Theorem prompt_announces_next_press (s : DialogueSystem) :
  active s = true ->
  exists d,
    draw s = Some d
    /\ (prompt d = "Press ENTER to finish..."
        <-> active (fst (next_line s)) = false)
    /\ (prompt d = "Press ENTER to continue..."
        <-> active (fst (next_line s)) = true).
Proof.
  intros A. unfold draw. rewrite A. eexists. split; [reflexivity|].
  cbn [prompt].
  pose proof (next_line_ends_iff s A) as E.
  destruct (Z.ltb_spec (Z.of_nat (dialogue_index s))
              (Z.of_nat (List.length (current_dialogue s)) - 1)) as [L | L].
  - assert (N : active (fst (next_line s)) <> false).
    { intros F. apply E in F. lia. }
    split; split; try discriminate; try reflexivity.
    + intros F. now destruct N.
    + intros _. now destruct (active (fst (next_line s))).
  - assert (F : active (fst (next_line s)) = false) by (apply E; lia).
    rewrite F. split; split; try discriminate; reflexivity.
Qed.

Lemma prompt_announces_next_press_witness :
  exists d,
    draw (mk_system true [["a"]; ["b"]] 1 None false None) = Some d
    /\ prompt d = "Press ENTER to finish...".
Proof.
  destruct (prompt_announces_next_press
              (mk_system true [["a"]; ["b"]] 1 None false None) eq_refl)
    as [d [D [[_ F] _]]].
  exists d. split; [exact D | apply F; reflexivity].
Defined.

(** X8.  For a box in use that is active on one of its pages, [draw]
    shows every line of that page, in order, on rows 0, 1, 2, ...: no line
    is skipped as blank, and at most four lines are shown. *)
Theorem draw_shows_whole_page (font_size : string -> Z)
    (s : DialogueSystem) (p : page) :
  reachable font_size s ->
  active s = true ->
  nth_error (current_dialogue s) (dialogue_index s) = Some p ->
  exists d,
    draw s = Some d
    /\ shown d = enumerate p
    /\ map snd (shown d) = p
    /\ map fst (shown d) = seq 0 (List.length p).
Proof.
  intros R A N. unfold draw. rewrite A, N. eexists. split; [reflexivity|].
  cbn [shown]. rewrite filter_enumerate.
  - split; [reflexivity|].
    split; [apply map_snd_enumerate | apply map_fst_enumerate].
  - intros line Hl. apply (reachable_lines font_size s R p line); [|exact Hl].
    now apply nth_error_In in N.
Qed.

Lemma draw_shows_whole_page_witness :
  exists d,
    draw (run_op fixed_font online_box
            (OpStart greeting_service "trader" trader_context None))
    = Some d
    /\ map snd (shown d) = ["Fresh seeds today!"].
Proof.
  destruct (draw_shows_whole_page fixed_font
              (run_op fixed_font online_box
                 (OpStart greeting_service "trader" trader_context None))
              ["Fresh seeds today!"]
              (reach_op fixed_font _ _
                 (reach_init fixed_font true true true _ _))
              eq_refl eq_refl) as [d [D [_ [S _]]]].
  exists d. split; [exact D | exact S].
Defined.

End SessionExtras.

(* ------------------------------------------------------------------ *)
(** ** More on the dialogue client *)

Module ClientExtras.

Import PyStr AIDialogue ClientFacts Samples.

(** X9.  The credentials file is accepted exactly when it parses to a
    JSON object in which both "OPENAI_API_KEY" and "base_url" are present
    with a value that Python takes as true; the credentials returned are
    those two values (nothing checks that they are strings). *)
Theorem credentials_accepted_iff (f : cred_file) (c : credentials) :
  _load_api_credentials f = Some c
  <-> exists fields,
        f = Parsed (JObj fields)
        /\ dict_get fields "OPENAI_API_KEY" = Some (api_key c)
        /\ dict_get fields "base_url" = Some (base_url c)
        /\ json_truthy (api_key c) = true
        /\ json_truthy (base_url c) = true.
Proof.
  split.
  - destruct f as [| | |data]; try discriminate.
    destruct data as [| | | | |fields]; try discriminate.
    unfold _load_api_credentials, data_get. intros H. exists fields.
    split; [reflexivity|].
    destruct (dict_get fields "OPENAI_API_KEY") as [k|] eqn:K;
      destruct (dict_get fields "base_url") as [u|] eqn:U;
      cbn [json_truthy negb orb] in H;
      try discriminate;
      try (rewrite orb_true_r in H; discriminate).
    destruct (json_truthy k) eqn:Tk; [|discriminate].
    destruct (json_truthy u) eqn:Tu; [|discriminate].
    cbn in H. injection H as <-. cbn. now repeat split.
  - intros [fields [-> [K [U [Tk Tu]]]]].
    unfold _load_api_credentials, data_get. rewrite K, U, Tk, Tu.
    cbn. now destruct c.
Qed.

(** X10.  The manager comes up online exactly when the [openai] module
    was imported, the credentials file was accepted and the client
    constructor did not raise.  In every case the flag and the client
    agree: [fallback_mode] is off exactly when there is a client, and the
    client carries the two values of the file. *)
Theorem online_exactly_when (openai_imported : bool) (f : cred_file)
    (ctor_ok : credentials -> bool) :
  let m := init openai_imported f ctor_ok in
  (online m = true
   <-> openai_imported = true
       /\ exists c, _load_api_credentials f = Some c /\ ctor_ok c = true)
  /\ (fallback_mode m = false <-> mgr_client m <> None)
  /\ (forall cl, mgr_client m = Some cl ->
        exists c, _load_api_credentials f = Some c
                  /\ client_key cl = api_key c /\ client_url cl = base_url c).
Proof.
  cbv zeta. unfold init, online.
  destruct openai_imported; cbn [negb].
  - destruct (_load_api_credentials f) as [c|] eqn:L.
    + destruct (ctor_ok c) eqn:O; cbn.
      * split; [|split].
        -- split; [|reflexivity]. intros _. split; [reflexivity|].
           now exists c.
        -- split; [discriminate | reflexivity].
        -- intros cl H. injection H as <-. now exists c.
      * split; [|split].
        -- split; [discriminate|]. intros [_ [c' [E O']]].
           injection E as <-. congruence.
        -- split; [discriminate | intros H; now destruct H].
        -- discriminate.
    + cbn. split; [|split].
      * split; [discriminate|]. intros [_ [c' [E _]]]. discriminate.
      * split; [discriminate | intros H; now destruct H].
      * discriminate.
  - cbn. split; [|split].
    + split; [discriminate|]. intros [E _]. discriminate.
    + split; [discriminate | intros H; now destruct H].
    + discriminate.
Qed.

(** X11.  A manager that is not online never looks at the remote service
    or at the character's role: whatever they are, the call returns the
    same fallback line, which depends on the name, the situation and the
    emotion only, and the manager is unchanged. *)
Theorem offline_ignores_service (remote remote' : remote_service)
    (self : AIDialogueManager) (n r r' c e : string) :
  online self = false ->
  generate_npc_dialogue remote self n r c e
  = generate_npc_dialogue remote' self n r' c e
  /\ generate_npc_dialogue remote self n r c e
     = (self, Returns (_get_fallback_dialogue n c e)).
Proof.
  intros H.
  rewrite (generate_offline remote self n r c e H).
  now rewrite (generate_offline remote' self n r' c e H).
Qed.

Lemma offline_ignores_service_witness :
  generate_npc_dialogue dead_service (init true FileNotFound (fun _ => true))
    "Merchant Pete" "friendly trader" "player is rich" "sad"
  = generate_npc_dialogue greeting_service
      (init true FileNotFound (fun _ => true))
      "Merchant Pete" "grumpy trader" "player is rich" "sad".
Proof.
  apply (offline_ignores_service dead_service greeting_service
           (init true FileNotFound (fun _ => true))
           "Merchant Pete" "friendly trader" "grumpy trader"
           "player is rich" "sad").
  reflexivity.
Defined.

(** X12.  In the fallback table the emotion comes before the situation:
    for happy, sad, angry, surprised and fearful the line does not depend
    on the situation text, whoever the character is; and for a character
    that is not Merchant Pete the situation is never looked at.  Every
    fallback line has between 1 and 131 characters. *)
Theorem fallback_emotion_first (name c c' e : string) :
  (In e ["happy"; "sad"; "angry"; "surprised"; "fearful"]
   \/ contains "Merchant Pete" name = false ->
   _get_fallback_dialogue name c e = _get_fallback_dialogue name c' e)
  /\ (1 <= String.length (_get_fallback_dialogue name c e) <= 131)%nat.
Proof.
  split.
  - unfold _get_fallback_dialogue.
    intros [H | H].
    + destruct (contains "Merchant Pete" name); [|reflexivity].
      cbn in H.
      repeat (destruct H as [<- | H]; [reflexivity|]). destruct H.
    + now rewrite H.
  - unfold _get_fallback_dialogue.
    repeat match goal with
           | |- context [if ?b then _ else _] => destruct b
           end; cbn; lia.
Qed.

Lemma fallback_emotion_first_witness :
  _get_fallback_dialogue "Merchant Pete" "player is rich" "sad"
  = _get_fallback_dialogue "Merchant Pete" "player is new" "sad".
Proof.
  apply (proj1 (fallback_emotion_first "Merchant Pete" "player is rich"
                  "player is new" "sad")).
  left. cbn. tauto.
Defined.

(** X13.  The guidance sent with a request is never empty, and it is the
    guidance of "neutral" exactly for the emotions other than happy, sad,
    angry, surprised and fearful: every label outside the table is treated
    as neutral. *)
Theorem hint_defaults_to_neutral (e : string) :
  emotion_hint e <> ""
  /\ (emotion_hint e = emotion_hint "neutral"
      <-> ~ In e ["happy"; "sad"; "angry"; "surprised"; "fearful"]).
Proof.
  unfold emotion_hint, emotion_guidance. cbn [assoc].
  destruct (String.eqb_spec "happy" e) as [<- | N1].
  { split; [discriminate|]. split; [discriminate|].
    intros H. exfalso. apply H. cbn. tauto. }
  destruct (String.eqb_spec "sad" e) as [<- | N2].
  { split; [discriminate|]. split; [discriminate|].
    intros H. exfalso. apply H. cbn. tauto. }
  destruct (String.eqb_spec "angry" e) as [<- | N3].
  { split; [discriminate|]. split; [discriminate|].
    intros H. exfalso. apply H. cbn. tauto. }
  destruct (String.eqb_spec "surprised" e) as [<- | N4].
  { split; [discriminate|]. split; [discriminate|].
    intros H. exfalso. apply H. cbn. tauto. }
  destruct (String.eqb_spec "fearful" e) as [<- | N5].
  { split; [discriminate|]. split; [discriminate|].
    intros H. exfalso. apply H. cbn. tauto. }
  assert (NotIn : ~ In e ["happy"; "sad"; "angry"; "surprised"; "fearful"]).
  { cbn. intros [H | [H | [H | [H | [H | []]]]]]; congruence. }
  destruct (String.eqb_spec "neutral" e) as [<- | N6]; cbn.
  - split; [discriminate|]. split; [intros _; exact NotIn | reflexivity].
  - split; [discriminate|]. split; [intros _; exact NotIn | reflexivity].
Qed.

End ClientExtras.

(* ------------------------------------------------------------------ *)
(** ** More on the buffer and the detection loop *)

Module BufferExtras.

Import Deque DequeFacts Camera Detection Samples.

(** X14.  A buffer of any capacity that is within its bound stays within
    it under any pushes, and holds afterwards the last [maxlen] elements of
    its old contents followed by the pushes; when old contents and pushes
    fit together nothing is dropped.  With a capacity of at least one the
    element pushed last is always at the right end. *)
Theorem buffer_holds_latest (A : Type) (d : deque A) (xs : list A) :
  wf d ->
  wf (extend d xs)
  /\ maxlen (extend d xs) = maxlen d
  /\ items (extend d xs) = lastn (maxlen d) (items d ++ xs)
  /\ ((List.length (items d) + List.length xs <= maxlen d)%nat ->
      items (extend d xs) = (items d ++ xs)%list)
  /\ (forall x dflt, (1 <= maxlen d)%nat ->
        last (items (append (extend d xs) x)) dflt = x).
Proof.
  intros W.
  split; [now apply extend_wf|].
  split; [apply extend_maxlen|].
  split; [now apply extend_items|].
  split.
  - intros H. rewrite (extend_items A d xs W).
    apply lastn_short. rewrite length_app. lia.
  - intros x dflt H.
    rewrite (append_items A (extend d xs) x (extend_wf A d xs W)).
    rewrite extend_maxlen. unfold lastn.
    set (l := items (extend d xs)).
    rewrite length_app. cbn [List.length].
    rewrite skipn_app.
    replace (List.length l + 1 - maxlen d - List.length l)%nat
      with 0%nat by lia.
    cbn [skipn]. apply last_last.
Qed.

Lemma buffer_holds_latest_witness :
  items (extend (mk_deque 3 ["a"]) ["b"; "c"; "d"]) = ["b"; "c"; "d"]
  /\ last (items (append (extend (mk_deque 3 ["a"]) ["b"; "c"; "d"]) "e")) ""
     = "e".
Proof.
  destruct (buffer_holds_latest string (mk_deque 3 ["a"]) ["b"; "c"; "d"])
    as [_ [_ [H [_ L]]]].
  - unfold wf. cbn. lia.
  - split; [exact H|]. apply L. cbn. lia.
Defined.

Lemma detect_extend (ticks : list tick) :
  forall d, detect ticks d = extend d (labels ticks).
Proof.
  induction ticks as [|t ticks IH]; intros d; [reflexivity|].
  destruct t; cbn [detect labels]; try apply IH; try reflexivity.
Qed.

(** X15.  The detection loop only appends: the buffer after it is the
    buffer before it extended by the labels classified before the first
    round that raises, so it holds the last [maxlen] of old contents and
    those labels.  Rounds whose read fails or that classify nothing leave
    it alone, and once a round raises no later label reaches it. *)
Theorem detection_appends_labels (ticks later : list tick)
    (d : deque string) :
  wf d ->
  detect ticks d = extend d (labels ticks)
  /\ items (detect ticks d) = lastn (maxlen d) (items d ++ labels ticks)
  /\ detect (ticks ++ TickRaises :: later) d = detect ticks d
  /\ detect (TickReadFailed :: TickNoLabel :: ticks) d = detect ticks d.
Proof.
  intros W. split; [apply detect_extend|].
  split; [rewrite detect_extend; now apply extend_items|].
  split; [|reflexivity].
  rewrite !detect_extend. f_equal.
  clear. induction ticks as [|t ticks IH]; [reflexivity|].
  destruct t; cbn [app labels]; try exact IH; [now rewrite IH | reflexivity].
Qed.

Lemma detection_appends_labels_witness :
  items (detect [TickLabel "happy"; TickReadFailed; TickLabel "sad";
                 TickRaises; TickLabel "angry"] Level.emotions_deque0)
  = lastn 5 ["happy"; "sad"].
Proof.
  apply (proj1 (proj2 (detection_appends_labels
                          [TickLabel "happy"; TickReadFailed; TickLabel "sad";
                           TickRaises; TickLabel "angry"] []
                          Level.emotions_deque0
                          ltac:(unfold wf; cbn; lia)))).
Defined.

End BufferExtras.

(* ------------------------------------------------------------------ *)
(** ** The face that is classified *)

Module FaceExtras.

Import Detection.

Lemma hd_insert_desc (f : face) (l : list face) :
  hd_error (insert_desc f l)
  = match hd_error l with
    | Some g => if (area g <=? area f)%Z then Some f else Some g
    | None => Some f
    end.
Proof.
  destruct l as [|g l]; [reflexivity|]. cbn.
  now destruct (area g <=? area f)%Z.
Qed.

Lemma hd_sorted_by_area (faces : list face) :
  hd_error (sorted_by_area faces) = first_largest faces.
Proof.
  induction faces as [|f faces IH]; [reflexivity|].
  cbn [sorted_by_area fold_right first_largest].
  rewrite hd_insert_desc. fold (sorted_by_area faces). now rewrite IH.
Qed.

Lemma first_largest_spec (faces : list face) (f : face) :
  first_largest faces = Some f ->
  exists before after,
    faces = (before ++ f :: after)%list
    /\ (forall g, In g before -> (area g < area f)%Z)
    /\ (forall g, In g after -> (area g <= area f)%Z).
Proof.
  revert f. induction faces as [|x faces IH]; intros f H; [discriminate|].
  cbn [first_largest] in H.
  destruct (first_largest faces) as [g|] eqn:E.
  - destruct (IH g eq_refl) as [before [after [-> [B A]]]].
    destruct (Z.leb_spec (area g) (area x)) as [L | L]; injection H as <-.
    + exists [], (before ++ g :: after)%list.
      split; [reflexivity|]. split; [intros ? []|].
      intros h Hh. apply in_app_or in Hh as [Hh | [<- | Hh]].
      * specialize (B h Hh). lia.
      * exact L.
      * specialize (A h Hh). lia.
    + exists (x :: before), after.
      split; [reflexivity|]. split; [|exact A].
      intros h [<- | Hh]; [exact L | now apply B].
  - injection H as <-. destruct faces as [|y faces].
    + exists [], []. split; [reflexivity|]. split; intros ? [].
    + cbn in E. destruct (first_largest faces);
        [destruct (_ <=? _)%Z|]; discriminate.
Qed.

(** X16.  When faces were found, the face that is classified is one of
    them, no face has a larger area, and every face found before it has a
    strictly smaller area: the largest face, the first one among equals.
    Without faces none is chosen. *)
Theorem largest_face_is_first_maximum (faces : list face) :
  (faces = [] -> largest_face faces = None)
  /\ (faces <> [] ->
      exists f before after,
        largest_face faces = Some f
        /\ faces = (before ++ f :: after)%list
        /\ (forall g, In g before -> (area g < area f)%Z)
        /\ (forall g, In g faces -> (area g <= area f)%Z)).
Proof.
  split; [now intros ->|].
  intros N. destruct faces as [|x faces]; [contradiction|].
  unfold largest_face. rewrite hd_sorted_by_area.
  destruct (first_largest (x :: faces)) as [f|] eqn:E.
  - destruct (first_largest_spec (x :: faces) f E)
      as [before [after [F [B A]]]].
    exists f, before, after. split; [reflexivity|]. split; [exact F|].
    split; [exact B|].
    intros g Hg. rewrite F in Hg.
    apply in_app_or in Hg as [Hg | [<- | Hg]];
      [specialize (B g Hg) | | specialize (A g Hg)]; lia.
  - cbn in E. destruct (first_largest faces);
      [destruct (_ <=? _)%Z|]; discriminate.
Qed.

Lemma largest_face_is_first_maximum_witness :
  exists f before after,
    largest_face [(0, 0, 10, 10); (5, 5, 20, 30); (9, 9, 30, 20); (1, 1, 2, 2)]%Z
    = Some f
    /\ [(0, 0, 10, 10); (5, 5, 20, 30); (9, 9, 30, 20); (1, 1, 2, 2)]%Z
       = (before ++ f :: after)%list
    /\ f = (5, 5, 20, 30)%Z.
Proof.
  destruct (proj2 (largest_face_is_first_maximum
                     [(0, 0, 10, 10); (5, 5, 20, 30); (9, 9, 30, 20);
                      (1, 1, 2, 2)]%Z) ltac:(discriminate))
    as [f [before [after [H [E _]]]]].
  exists f, before, after. split; [exact H|]. split; [exact E|].
  vm_compute in H. now injection H as <-.
Defined.

End FaceExtras.

(* ------------------------------------------------------------------ *)
(** ** The list of cameras *)

Module ScanFacts.

Import Camera Scan.

Section WithDriver.

Variable drv : driver.

Lemma scan_spec (indices : list Z) :
  forall available,
    scan drv indices available
    = ((available
        ++ map (fun i => mk_camera i (camera_label i))
             (filter (works drv) (scanned drv indices)))%list,
       flat_map (round_events drv) (scanned drv indices)).
Proof.
  induction indices as [|i rest IH]; intros available.
  - cbn. now rewrite app_nil_r.
  - cbn [scan scanned].
    unfold closed, works, opens_and_reads, open_capture, round_events.
    change (0 =? 0)%Z with true. cbv iota.
    unfold round_events, works, opens_and_reads, open_capture in IH.
    destruct (drv i None) as [cap|] eqn:D.
    + destruct (cap_isOpened cap) as [[|]|] eqn:O.
      * destruct (cap_read cap) as [[ret frame]|] eqn:R.
        -- cbn [andb filter flat_map map].
           unfold works, opens_and_reads, open_capture, round_events.
           change (0 =? 0)%Z with true. cbv iota. rewrite D, O, R.
           rewrite IH.
           destruct ret, frame as [fr|]; cbn [andb map app];
             rewrite <- ?app_assoc; reflexivity.
        -- cbn [andb filter flat_map map].
           unfold works, opens_and_reads, open_capture, round_events.
           change (0 =? 0)%Z with true. cbv iota. rewrite D, O, R.
           now rewrite IH.
      * cbn [andb]. destruct (i >? 2)%Z.
        -- cbn [filter flat_map map].
           unfold works, opens_and_reads, open_capture, round_events.
           change (0 =? 0)%Z with true. cbv iota. rewrite D, O.
           cbn. now rewrite app_nil_r.
        -- cbn [filter flat_map map].
           unfold works, opens_and_reads, open_capture, round_events.
           change (0 =? 0)%Z with true. cbv iota. rewrite D, O.
           now rewrite IH.
      * cbn [andb filter flat_map map].
        unfold works, opens_and_reads, open_capture, round_events.
        change (0 =? 0)%Z with true. cbv iota. rewrite D, O.
        now rewrite IH.
    + cbn [andb filter flat_map map].
      unfold works, opens_and_reads, open_capture, round_events.
      change (0 =? 0)%Z with true. cbv iota. rewrite D.
      now rewrite IH.
Qed.

Lemma scanned_in (indices : list Z) (i : Z) :
  In i (scanned drv indices)
  <-> exists before after,
        indices = (before ++ i :: after)%list
        /\ Forall (fun j => closed drv j && (j >? 2)%Z = false) before.
Proof.
  revert i. induction indices as [|x rest IH]; intros i.
  - cbn. split; [intros [] | intros [[|? ?] [? [E _]]]; discriminate].
  - cbn [scanned]. destruct (closed drv x && (x >? 2)%Z) eqn:C.
    + split.
      * intros [<- | []]. exists [], rest. split; [reflexivity | constructor].
      * intros [[|y before] [after [E F]]]; injection E as -> ->.
        -- now left.
        -- inversion F; subst. congruence.
    + split.
      * intros [<- | H].
        -- exists [], rest. split; [reflexivity | constructor].
        -- apply IH in H as [before [after [-> F]]].
           exists (x :: before), after. split; [reflexivity|].
           now constructor.
      * intros [[|y before] [after [E F]]]; injection E as -> ->.
        -- now left.
        -- right. apply IH. exists before, after.
           split; [reflexivity|]. now inversion F.
Qed.

End WithDriver.

Lemma sorted_split (before after : list Z) (i : Z) :
  StronglySorted Z.lt (before ++ i :: after) ->
  (forall j, In j before -> (j < i)%Z)
  /\ (forall j, In j after -> (i < j)%Z).
Proof.
  induction before as [|x before IH]; cbn; intros S.
  - inversion S as [|? ? _ F]; subst. split; [intros ? [] |].
    intros j Hj. rewrite Forall_forall in F. now apply F.
  - inversion S as [|? ? S' F]; subst. destruct (IH S') as [B A].
    split; [|exact A].
    intros j [<- | Hj]; [|now apply B].
    rewrite Forall_forall in F. apply F. apply in_or_app. right. now left.
Qed.

Lemma range10_sorted : StronglySorted Z.lt Scan.range10.
Proof.
  unfold Scan.range10. cbn.
  repeat (constructor; [|repeat constructor; lia]). constructor.
Qed.

Lemma range10_in (i : Z) : In i Scan.range10 <-> (0 <= i <= 9)%Z.
Proof.
  unfold Scan.range10. cbn. split.
  - intros H. repeat (destruct H as [<- | H]; [lia|]). destruct H.
  - intros H.
    assert (i = 0 \/ i = 1 \/ i = 2 \/ i = 3 \/ i = 4 \/ i = 5 \/ i = 6
            \/ i = 7 \/ i = 8 \/ i = 9)%Z as E by lia.
    repeat (destruct E as [-> | E]; [tauto|]). subst. tauto.
Qed.

Lemma find_camera (found : list Z) (index : Z) :
  find (fun camera => (Scan.cam_index camera =? index)%Z)
    (map (fun i => Scan.mk_camera i (Scan.camera_label i)) found)
  = if existsb (fun i => (i =? index)%Z) found
    then Some (Scan.mk_camera index (Scan.camera_label index))
    else None.
Proof.
  induction found as [|i found IH]; [reflexivity|].
  cbn. destruct (Z.eqb_spec i index) as [-> | N]; [reflexivity | exact IH].
Qed.

End ScanFacts.

Module ScanMore.

Import Camera Scan ScanFacts.

Lemma cameras_listed_aux (drv : driver) :
  fst (detect_available_cameras drv)
  = match filter (works drv) (scanned drv range10) with
    | [] => [default_camera]
    | x :: found =>
        map (fun i => mk_camera i (camera_label i)) (x :: found)
    end
  /\ fst (detect_available_cameras drv) <> [].
Proof.
  unfold detect_available_cameras. rewrite scan_spec. cbn [app fst].
  now destruct (filter (works drv) (scanned drv range10)).
Qed.

End ScanMore.

Module ScanExtras.

Import Camera Scan ScanFacts ScanMore Samples.

(** X17.  [detect_available_cameras] never returns an empty list.  It
    lists, in increasing order of index and under the name "Camera i"
    (with " (Back)" for 0 and " (Front)" for 1), exactly the indices from 0
    to 9 whose camera opens and gives a frame and before which no index
    above 2 has a capture object that is not open; when there is no such
    index it returns the single entry "Default Camera" with index 0. *)
Theorem cameras_listed (drv : driver) :
  let found := filter (works drv) (scanned drv range10) in
  fst (detect_available_cameras drv)
  = match found with
    | [] => [default_camera]
    | _ :: _ => map (fun i => mk_camera i (camera_label i)) found
    end
  /\ fst (detect_available_cameras drv) <> []
  /\ StronglySorted Z.lt found
  /\ (forall i, In i found
                <-> (0 <= i <= 9)%Z /\ works drv i = true
                    /\ forall j, (3 <= j < i)%Z -> closed drv j = false).
Proof.
  cbv zeta. unfold detect_available_cameras. rewrite scan_spec.
  cbn [app fst].
  split; [|split; [|split]].
  - now destruct (filter (works drv) (scanned drv range10)).
  - now destruct (filter (works drv) (scanned drv range10)).
  - assert (G : forall l, StronglySorted Z.lt l ->
                          StronglySorted Z.lt (filter (works drv) (scanned drv l))).
    { induction l as [|x l IH]; intros S; [constructor|].
      inversion S as [|? ? S' F]; subst. cbn [scanned].
      assert (K : forall l', (forall j, In j l' -> In j l) ->
                  StronglySorted Z.lt l' ->
                  StronglySorted Z.lt
                    (if works drv x then x :: l' else l')).
      { intros l' I S''. destruct (works drv x); [|exact S''].
        constructor; [exact S''|]. apply Forall_forall. intros j Hj.
        rewrite Forall_forall in F. now apply F, I. }
      destruct (closed drv x && (x >? 2)%Z).
      - cbn [filter]. apply (K []); [intros ? [] | constructor].
      - cbn [filter]. apply K; [|now apply IH].
        intros j Hj. apply filter_In in Hj as [Hj _].
        apply scanned_in in Hj as [b [a [-> _]]].
        apply in_or_app. right. now left. }
    apply G, range10_sorted.
  - intros i. rewrite filter_In, scanned_in. split.
    + intros [[before [after [E F]]] W].
      assert (I : In i range10) by (rewrite E; apply in_or_app; right; now left).
      split; [now apply range10_in|]. split; [exact W|].
      intros j Hj.
      pose proof range10_sorted as S. rewrite E in S.
      destruct (sorted_split before after i S) as [B A].
      assert (Ij : In j range10) by (apply range10_in; apply range10_in in I; lia).
      rewrite E in Ij. apply in_app_or in Ij as [Ij | [<- | Ij]].
      * rewrite Forall_forall in F. specialize (F j Ij).
        apply andb_false_iff in F as [F | F]; [exact F | lia].
      * lia.
      * specialize (A j Ij). lia.
    + intros [R [W C]]. split; [|exact W].
      apply range10_in in R. destruct (in_split i range10 R) as [before [after E]].
      exists before, after. split; [exact E|].
      pose proof range10_sorted as S. rewrite E in S.
      destruct (sorted_split before after i S) as [B _].
      apply Forall_forall. intros j Hj. specialize (B j Hj).
      destruct (Z.gtb_spec j 2) as [G | G]; [|apply andb_false_r].
      rewrite (C j); [reflexivity | lia].
Qed.

Lemma round_events_tag (drv : driver) (j : Z) (e : event) :
  In e (round_events drv j) -> e = EvConstruct j \/ e = EvRelease j.
Proof.
  unfold round_events. destruct (drv j None) as [cap|]; [|intros []].
  destruct (cap_isOpened cap) as [[|]|]; [destruct (cap_read cap)| |]; cbn;
    intuition congruence.
Qed.

(** X18.  In [detect_available_cameras], a capture object that the loop
    gets to and that is open is released exactly when its [read] did not
    raise: an exception in [read] skips [cap.release()] and the camera
    stays open. *)
Theorem scan_releases_unless_read_raises (drv : driver) (i : Z) :
  In i (scanned drv range10) ->
  opened drv i = true ->
  In (EvConstruct i) (snd (detect_available_cameras drv))
  /\ (In (EvRelease i) (snd (detect_available_cameras drv))
      <-> read_raises drv i = false).
Proof.
  intros S O. unfold detect_available_cameras. rewrite scan_spec. cbn [snd].
  assert (R : In (EvConstruct i) (round_events drv i)
              /\ (In (EvRelease i) (round_events drv i)
                  <-> read_raises drv i = false)).
  { unfold opened in O. unfold round_events, read_raises.
    destruct (drv i None) as [cap|]; [|discriminate].
    destruct (cap_isOpened cap) as [[|]|]; try discriminate.
    destruct (cap_read cap); cbn.
    - split; [tauto|]. split; [reflexivity | tauto].
    - split; [tauto|]. split; [|discriminate].
      intros [H | []]. discriminate. }
  destruct R as [R1 R2]. split.
  - apply in_flat_map. now exists i.
  - rewrite in_flat_map. split.
    + intros [j [Hj He]].
      destruct (round_events_tag drv j _ He) as [E | E]; [discriminate|].
      injection E as <-. now apply R2.
    + intros H. exists i. split; [exact S | now apply R2].
Qed.

Lemma scan_releases_unless_read_raises_witness :
  In (EvConstruct 0%Z) (snd (detect_available_cameras msmf_only))
  /\ In (EvRelease 0%Z) (snd (detect_available_cameras msmf_only)).
Proof.
  destruct (scan_releases_unless_read_raises msmf_only 0%Z) as [H1 H2].
  - vm_compute. tauto.
  - reflexivity.
  - split; [exact H1 | apply H2; reflexivity].
Defined.

(** X19.  [get_camera_name] gives a listed camera its listed name; for an
    index that is not listed it gives "Default Camera" when the index is 0
    and no camera at all was found, and "Camera <index>" otherwise. *)
Theorem camera_name_cases (drv : driver) (index : Z) :
  let found := filter (works drv) (scanned drv range10) in
  get_camera_name drv index
  = if existsb (fun i => (i =? index)%Z) found then camera_label index
    else if (match found with [] => true | _ => false end) && (index =? 0)%Z
         then "Default Camera"
         else "Camera " ++ decimal index.
Proof.
  cbv zeta. unfold get_camera_name.
  rewrite (proj1 (cameras_listed_aux drv)).
  destruct (filter (works drv) (scanned drv range10)) as [|x found] eqn:F.
  - cbn. now destruct index.
  - rewrite find_camera.
    now destruct (existsb (fun i => (i =? index)%Z) (x :: found)).
Qed.

End ScanExtras.

(* ------------------------------------------------------------------ *)
(** ** The settings file *)

Module SettingsFacts.

Import Settings.

Lemma lookup_set_same (d : dict) (k : string) (v : value) :
  lookup (set_item d k v) k = Some v.
Proof.
  induction d as [|[k' v'] d IH]; cbn.
  - now rewrite String.eqb_refl.
  - destruct (String.eqb k' k) eqn:E; cbn.
    + now rewrite String.eqb_refl.
    + now rewrite E.
Qed.

Lemma lookup_set_other (d : dict) (k k' : string) (v : value) :
  k <> k' -> lookup (set_item d k v) k' = lookup d k'.
Proof.
  intros N. induction d as [|[x v'] d IH]; cbn.
  - apply String.eqb_neq in N. now rewrite N.
  - destruct (String.eqb_spec x k) as [-> | Nx]; cbn.
    + apply String.eqb_neq in N. now rewrite N.
    + now rewrite IH.
Qed.

Lemma lookup_fold_pairs (pairs : list (string * value)) (k : string) :
  forall d,
    lookup (fold_left (fun d kv => set_item d (fst kv) (snd kv)) pairs d) k
    = match last_binding pairs k with
      | Some v => Some v
      | None => lookup d k
      end.
Proof.
  induction pairs as [|[x v] pairs IH]; intros d; [reflexivity|].
  cbn [fold_left last_binding fst snd]. rewrite IH.
  destruct (last_binding pairs k); [reflexivity|].
  destruct (String.eqb_spec x k) as [-> | N].
  - apply lookup_set_same.
  - now apply lookup_set_other.
Qed.

Lemma lookup_of_pairs (pairs : list (string * value)) (k : string) :
  lookup (of_pairs pairs) k = last_binding pairs k.
Proof.
  unfold of_pairs. rewrite lookup_fold_pairs.
  now destruct (last_binding pairs k).
Qed.

Lemma lookup_fill (defaults : dict) (k : string) :
  forall d,
    lookup (fill_defaults defaults d) k
    = match lookup d k with
      | Some v => Some v
      | None => lookup defaults k
      end.
Proof.
  unfold fill_defaults.
  induction defaults as [|[x v] defaults IH]; intros d; cbn [fold_left fst snd].
  - now destruct (lookup d k).
  - rewrite IH. cbn [lookup].
    destruct (lookup d x) eqn:L.
    + destruct (lookup d k) eqn:K; [reflexivity|].
      destruct (String.eqb_spec x k) as [-> | N]; [congruence | reflexivity].
    + destruct (String.eqb_spec x k) as [-> | N].
      * now rewrite lookup_set_same, L.
      * now rewrite lookup_set_other.
Qed.

Lemma set_item_keys (d : dict) (k x : string) (v : value) :
  In x (map fst (set_item d k v)) <-> x = k \/ In x (map fst d).
Proof.
  induction d as [|[k' v'] d IH]; cbn.
  - intuition congruence.
  - destruct (String.eqb_spec k' k) as [-> | N]; cbn.
    + intuition congruence.
    + rewrite IH. intuition congruence.
Qed.

Lemma set_item_unique (d : dict) (k : string) (v : value) :
  NoDup (map fst d) -> NoDup (map fst (set_item d k v)).
Proof.
  induction d as [|[k' v'] d IH]; cbn; intros H.
  - constructor; [intros [] | constructor].
  - inversion H as [|? ? Hn Hd]; subst.
    destruct (String.eqb_spec k' k) as [-> | N]; cbn.
    + now constructor.
    + constructor; [|now apply IH].
      rewrite set_item_keys. intros [E | I]; [congruence | contradiction].
Qed.

Lemma of_pairs_unique (pairs : list (string * value)) :
  NoDup (map fst (of_pairs pairs)).
Proof.
  unfold of_pairs.
  assert (G : forall d, NoDup (map fst d) ->
                NoDup (map fst (fold_left
                                  (fun d kv => set_item d (fst kv) (snd kv))
                                  pairs d))).
  { induction pairs as [|[x v] pairs IH]; intros d H; [exact H|].
    cbn [fold_left]. apply IH. now apply set_item_unique. }
  apply G. constructor.
Qed.

Lemma fill_defaults_unique (defaults d : dict) :
  NoDup (map fst d) -> NoDup (map fst (fill_defaults defaults d)).
Proof.
  unfold fill_defaults. revert d.
  induction defaults as [|[x v] defaults IH]; intros d H; [exact H|].
  cbn [fold_left fst snd]. apply IH.
  destruct (lookup d x); [exact H | now apply set_item_unique].
Qed.

Lemma lookup_in_keys (d : dict) (k : string) (v : value) :
  lookup d k = Some v -> In k (map fst d).
Proof.
  induction d as [|[k' v'] d IH]; cbn; [discriminate|].
  destruct (String.eqb_spec k' k) as [-> | N]; [now left|].
  intros H. right. now apply IH.
Qed.

Lemma last_binding_unique (d : dict) (k : string) :
  NoDup (map fst d) -> last_binding d k = lookup d k.
Proof.
  induction d as [|[k' v'] d IH]; cbn; intros H; [reflexivity|].
  inversion H as [|? ? Hn Hd]; subst. rewrite (IH Hd).
  destruct (lookup d k) as [w|] eqn:L.
  - destruct (String.eqb_spec k' k) as [-> | N]; [|reflexivity].
    now apply lookup_in_keys in L.
  - reflexivity.
Qed.

Lemma defaults_unique : NoDup (map fst DEFAULT_SETTINGS).
Proof.
  cbn. repeat (constructor; [cbn; intuition discriminate|]). constructor.
Qed.

Lemma load_usable (f : settings_file) :
  usable f = true ->
  exists d,
    load_settings f = Returns (LDict d)
    /\ NoDup (map fst d)
    /\ forall k,
         lookup d k
         = match file_binding f k with
           | Some v => Some v
           | None => lookup DEFAULT_SETTINGS k
           end.
Proof.
  destruct f as [| | |[pairs| | |]]; try discriminate; intros _.
  - exists DEFAULT_SETTINGS. split; [reflexivity|].
    split; [apply defaults_unique | reflexivity].
  - exists DEFAULT_SETTINGS. split; [reflexivity|].
    split; [apply defaults_unique | reflexivity].
  - eexists. split; [reflexivity|]. split.
    + apply fill_defaults_unique, of_pairs_unique.
    + intros k. cbn [file_binding].
      now rewrite lookup_fill, lookup_of_pairs.
Qed.

Lemma get_usable (f : settings_file) (key : string) (default : value) :
  usable f = true ->
  get f key default
  = Returns (match file_binding f key with
             | Some v => v
             | None =>
                 match lookup DEFAULT_SETTINGS key with
                 | Some v => v
                 | None => default
                 end
             end).
Proof.
  intros U. destruct (load_usable f U) as [d [L [_ K]]].
  unfold get. rewrite L, K.
  now destruct (file_binding f key), (lookup DEFAULT_SETTINGS key).
Qed.

Lemma load_not_object (f : settings_file) :
  not_an_object f = true ->
  load_settings f = Raises
  \/ (exists elems, load_settings f = Returns (LArray elems))
  \/ (exists s, load_settings f = Returns (LString s)).
Proof.
  destruct f as [| | |[pairs|elems|s|v]]; try discriminate; intros _;
    cbn [load_settings].
  - destruct (forallb _ _); [right; left; now exists elems | now left].
  - destruct (forallb _ _); [right; right; now exists s | now left].
  - now left.
Qed.

End SettingsFacts.

Module SettingsExtras.

Import Settings SettingsFacts.

(** X20.  With a settings file that is absent, is not JSON, or holds a
    JSON object, [get] returns the value the file gives the key, else the
    value of [DEFAULT_SETTINGS], and its own [default] argument only for a
    key that is in neither.  So for the six default keys the [default]
    argument is never used, and a missing key reads as its default. *)
Theorem get_prefers_file_then_defaults (f : settings_file) (key : string)
    (default : value) :
  usable f = true ->
  get f key default
  = Returns (match file_binding f key with
             | Some v => v
             | None =>
                 match lookup DEFAULT_SETTINGS key with
                 | Some v => v
                 | None => default
                 end
             end)
  /\ (In key (map fst DEFAULT_SETTINGS) ->
      forall default', get f key default' = get f key default).
Proof.
  intros U. split; [now apply get_usable|].
  intros I default'. rewrite !(get_usable f key _ U).
  destruct (file_binding f key); [reflexivity|].
  cbn in I.
  repeat (destruct I as [<- | I]; [reflexivity|]). destruct I.
Qed.

Lemma get_prefers_file_then_defaults_witness :
  get (Document (DObject [("camera_index", VInt 2)])) "enable_camera" (VBool false)
  = Returns (VBool true)
  /\ get (Document (DObject [("camera_index", VInt 2)])) "camera_index" (VInt 0)
     = Returns (VInt 2).
Proof.
  split.
  - apply (proj1 (get_prefers_file_then_defaults
                    (Document (DObject [("camera_index", VInt 2)]))
                    "enable_camera" (VBool false) eq_refl)).
  - apply (proj1 (get_prefers_file_then_defaults
                    (Document (DObject [("camera_index", VInt 2)]))
                    "camera_index" (VInt 0) eq_refl)).
Defined.

(** X21.  With such a file, [set] that manages to write is read back by
    [get]: the key has the new value, every other key reads as before, and
    the file written holds all six default keys.  When the file cannot be
    opened for writing, [set] still returns, the file is as before and the
    value is not stored. *)
Theorem set_then_get (f : settings_file) (key : string) (v : value) :
  usable f = true ->
  exists f',
    set Written f key v = Returns f'
    /\ usable f' = true
    /\ (forall default, get f' key default = Returns v)
    /\ (forall key' default,
           key' <> key -> get f' key' default = get f key' default)
    /\ (forall k, In k (map fst DEFAULT_SETTINGS) -> file_binding f' k <> None)
    /\ set OpenFailed f key v = Returns f.
Proof.
  intros U. destruct (load_usable f U) as [d [L [N K]]].
  set (d' := set_item d key v).
  assert (N' : NoDup (map fst d')) by now apply set_item_unique.
  assert (B : forall k, file_binding (Document (DObject d')) k = lookup d' k).
  { intros k. cbn [file_binding]. now apply last_binding_unique. }
  exists (Document (DObject d')).
  split; [unfold set; now rewrite L|].
  split; [reflexivity|].
  split; [|split; [|split]].
  - intros default. rewrite get_usable by reflexivity.
    rewrite B. unfold d'. now rewrite lookup_set_same.
  - intros key' default Hk.
    rewrite get_usable by reflexivity. rewrite (get_usable f key' default U).
    rewrite B. unfold d'. rewrite lookup_set_other by congruence.
    rewrite K.
    now destruct (file_binding f key'), (lookup DEFAULT_SETTINGS key').
  - intros k Hk. rewrite B. unfold d'.
    destruct (String.eqb_spec key k) as [-> | Ne].
    + rewrite lookup_set_same. discriminate.
    + rewrite lookup_set_other by exact Ne. rewrite K.
      destruct (file_binding f k); [discriminate|].
      cbn in Hk.
      repeat (destruct Hk as [<- | Hk]; [discriminate|]). destruct Hk.
  - unfold set. now rewrite L.
Qed.

Lemma set_then_get_witness :
  exists f',
    set Written Missing "camera_index" (VInt 1) = Returns f'
    /\ get f' "camera_index" (VInt 0) = Returns (VInt 1)
    /\ get f' "enable_camera" (VBool false) = Returns (VBool true).
Proof.
  destruct (set_then_get Missing "camera_index" (VInt 1) eq_refl)
    as [f' [S [_ [G [O _]]]]].
  exists f'. split; [exact S|]. split; [apply G|].
  rewrite O by discriminate. reflexivity.
Defined.

(** X22.  When [settings.json] holds JSON that is not an object (a list,
    a string, a number, a boolean or [null]), every [get] and every [set]
    raises: [load_settings] only catches a missing file and a JSON syntax
    error.  [get_camera_index], which the detection thread calls, raises
    with them. *)
Theorem non_object_settings_raise (f : settings_file) (key : string)
    (v default : value) (w : write_result) (index : Z) :
  not_an_object f = true ->
  get f key default = Raises
  /\ set w f key v = Raises
  /\ get_camera_index f = Raises
  /\ set_camera_index w f index = Raises.
Proof.
  intros H. unfold get_camera_index, set_camera_index, get, set.
  destruct (load_not_object f H) as [-> | [[elems ->] | [s ->]]];
    repeat split.
Qed.

Lemma non_object_settings_raise_witness :
  get (Document (DArray [])) "enable_camera" (VBool true) = Raises
  /\ get_camera_index (Document (DScalar VNull)) = Raises.
Proof.
  split.
  - apply (non_object_settings_raise (Document (DArray [])) "enable_camera"
             VNull (VBool true) Written 0 eq_refl).
  - apply (non_object_settings_raise (Document (DScalar VNull)) "k"
             VNull VNull Written 0 eq_refl).
Defined.

End SettingsExtras.

(* ------------------------------------------------------------------ *)
(** ** The emotion icons *)

Module OverlayFacts.

Import Deque DialogueUI Overlay.

Lemma place_emotions (icons : list string) (entries : list (nat * string)) :
  forall x,
    map di_emotion (place icons entries x)
    = filter (has_icon icons) (map snd entries).
Proof.
  induction entries as [|[i e] entries IH]; intros x; [reflexivity|].
  cbn [place map filter snd].
  destruct (has_icon icons e); cbn [negb map]; now rewrite IH.
Qed.

Lemma place_bounds (icons : list string) (entries : list (nat * string)) :
  forall x ic,
    In ic (place icons entries x) ->
    (di_x ic + di_size ic <= x)%Z
    /\ (x - 70 * Z.of_nat (List.length entries) <= di_x ic)%Z
    /\ (di_y ic + di_size ic = SCREEN_HEIGHT - 6)%Z
    /\ (di_size ic = 64 \/ di_size ic = 48)%Z.
Proof.
  induction entries as [|[i e] entries IH]; intros x ic H; [destruct H|].
  cbn [place] in H. cbn [List.length]. rewrite Nat2Z.inj_succ.
  destruct (has_icon icons e); cbn [negb] in H.
  - destruct H as [<- | H].
    + cbn [di_x di_y di_size]. destruct (i =? 0)%nat; lia.
    + destruct (IH _ ic H) as [A [B [C D]]].
      split; [|split; [|split]]; try assumption;
        destruct (i =? 0)%nat; lia.
  - destruct (IH _ ic H) as [A [B [C D]]].
    split; [|split; [|split]]; try assumption; lia.
Qed.

Lemma place_sorted (icons : list string) (entries : list (nat * string)) :
  forall x, StronglySorted left_of (place icons entries x).
Proof.
  induction entries as [|[i e] entries IH]; intros x; [constructor|].
  cbn [place]. destruct (has_icon icons e); cbn [negb]; [|apply IH].
  constructor; [apply IH|].
  apply Forall_forall. intros ic H. unfold left_of. cbn [di_x].
  destruct (place_bounds icons entries _ ic H) as [A _]. lia.
Qed.

Lemma place_boxed (icons : list string) (entries : list (nat * string)) :
  forall x ic,
    In ic (place icons entries x) ->
    di_boxed ic = true ->
    In (0%nat, di_emotion ic) entries /\ di_size ic = 64%Z.
Proof.
  induction entries as [|[i e] entries IH]; intros x ic H B; [destruct H|].
  cbn [place] in H.
  destruct (has_icon icons e); cbn [negb] in H.
  - destruct H as [<- | H].
    + cbn in B |- *. destruct (Nat.eqb_spec i 0) as [-> | N];
        [split; [now left | reflexivity] | discriminate].
    + destruct (IH _ ic H B) as [I S]. split; [now right | exact S].
  - destruct (IH _ ic H B) as [I S]. split; [now right | exact S].
Qed.

Lemma enumerate_zero {A : Type} (l : list A) (a : A) :
  In (0%nat, a) (enumerate l) -> hd_error l = Some a.
Proof.
  unfold enumerate. destruct l as [|x l]; [intros []|].
  cbn. intros [E | H]; [now injection E as ->|].
  exfalso. apply in_combine_l in H. apply in_seq in H. lia.
Qed.

Lemma hd_rev_last (l : list string) (a : string) :
  hd_error (List.rev l) = Some a -> l <> [] /\ last l "" = a.
Proof.
  destruct l as [|x l] using rev_ind; [discriminate|].
  rewrite rev_app_distr. cbn. intros E. injection E as <-.
  split; [now destruct l | apply last_last].
Qed.

End OverlayFacts.

Module OverlayExtras.

Import Deque DialogueUI Overlay OverlayFacts AIDialogue.

(** X23.  The emotion display draws the labels of the buffer that have
    an icon, newest first.  Every icon sits six pixels above the bottom of
    the screen, and each icon lies completely to the left of the ones drawn
    before it, at least six pixels apart; with the buffer within its bound
    of five they all lie inside the screen.  Only the newest label of the
    buffer can be drawn boxed, at size 64. *)
Theorem emotion_icons_laid_out (icons : list string) (d : deque string) :
  wf d -> maxlen d = 5%nat ->
  let shown := emotion_display icons d in
  map di_emotion shown = filter (has_icon icons) (List.rev (to_list d))
  /\ StronglySorted left_of shown
  /\ (forall ic, In ic shown ->
        (0 <= di_x ic)%Z
        /\ (di_x ic + di_size ic <= SCREEN_WIDTH - 6)%Z
        /\ (di_y ic + di_size ic = SCREEN_HEIGHT - 6)%Z
        /\ (di_boxed ic = true ->
            di_size ic = 64%Z /\ last (to_list d) "" = di_emotion ic)).
Proof.
  intros W M. cbv zeta. unfold emotion_display, truthy, to_list.
  destruct (items d) as [|x l] eqn:E.
  - cbn. split; [reflexivity|]. split; [constructor | intros ? []].
  - rewrite <- E.
    split; [|split].
    + now rewrite place_emotions, SessionMore.map_snd_enumerate.
    + apply place_sorted.
    + intros ic H.
      destruct (place_bounds icons _ _ ic H) as [A [B [C D]]].
      unfold enumerate in B.
      rewrite length_combine, length_seq, Nat.min_id, length_rev in B.
      unfold wf in W. rewrite M in W. unfold SCREEN_WIDTH in *.
      split; [lia|]. split; [exact A|]. split; [exact C|].
      intros Bx. destruct (place_boxed icons _ _ ic H Bx) as [I S].
      split; [exact S|].
      apply enumerate_zero in I. now apply hd_rev_last in I.
Qed.

Lemma emotion_icons_laid_out_witness :
  map di_emotion
    (emotion_display ["Happy"; "Sad"] (mk_deque 5 ["Sad"; "excited"; "Happy"]))
  = ["Happy"; "Sad"].
Proof.
  apply (emotion_icons_laid_out ["Happy"; "Sad"]
           (mk_deque 5 ["Sad"; "excited"; "Happy"])).
  - unfold wf. cbn. lia.
  - reflexivity.
Defined.

(** X24.  The icon table and the dialogue tables do not meet: whatever
    icon files exist, a label that has an icon is none of the six keys of
    [emotion_guidance], so the dialogue client gives it the guidance of
    "neutral" and the fallback line of no particular emotion; and a label
    that the dialogue tables know, or that [toggle_shop] pushes, has no
    icon and is not drawn. *)
Theorem icons_and_dialogue_labels_disjoint (file_exists : string -> bool)
    (e : string) :
  (has_icon (emotion_icons file_exists) e = true ->
   emotion_hint e = emotion_hint "neutral"
   /\ forall name c,
        _get_fallback_dialogue name c e = _get_fallback_dialogue name c "")
  /\ (In e Level.emotion_labels \/ In e Level.test_emotions ->
      has_icon (emotion_icons file_exists) e = false).
Proof.
  assert (K : has_icon (emotion_icons file_exists) e = true ->
              In e icon_names).
  { unfold has_icon, emotion_icons. intros H.
    apply existsb_exists in H as [x [Hx Ex]].
    apply String.eqb_eq in Ex. subst x.
    now apply filter_In in Hx as [Hx _]. }
  split.
  - intros H. apply K in H. cbn in H.
    repeat (destruct H as [<- | H]; [split; [reflexivity|];
                                     intros name c; reflexivity|]).
    destruct H.
  - intros H.
    destruct (has_icon (emotion_icons file_exists) e); [|reflexivity].
    pose proof (K eq_refl) as I. cbn in H, I. exfalso.
    repeat (destruct I as [<- | I];
            [intuition discriminate|]).
    exact I.
Qed.

Lemma icons_and_dialogue_labels_disjoint_witness :
  has_icon (emotion_icons (fun _ => true)) "happy" = false
  /\ emotion_hint "Happy" = emotion_hint "neutral".
Proof.
  split.
  - apply (proj2 (icons_and_dialogue_labels_disjoint (fun _ => true) "happy")).
    left. cbn. tauto.
  - apply (proj1 (icons_and_dialogue_labels_disjoint (fun _ => true) "Happy")).
    reflexivity.
Defined.

End OverlayExtras.

(* ------------------------------------------------------------------ *)
(** ** What the trader says without the service *)

Module TraderExtras.

Import PyStr AIDialogue Dialogue Level TraderLines ClientFacts Samples.

Lemma shop_context_fields (rnd : nat) (self : Level.Level) :
  exists sit emo,
    snd (shop_context rnd self)
    = mk_context (Some "Merchant Pete") (Some "friendly trader")
        (Some sit) (Some emo) (Some (money self))
    /\ ((money self > 1000)%Z
        /\ sit = "player has lots of money and is doing well farming"
        \/ (money self < 100)%Z
           /\ sit = "player is just starting out and has limited funds"
        \/ (100 <= money self <= 1000)%Z
           /\ sit = "player is making steady progress with their farm").
Proof.
  unfold shop_context.
  destruct (negb (Deque.truthy (emotions_deque self))
            || (List.length (Deque.items (emotions_deque self)) =? 0)%nat);
    cbn [snd].
  - eexists. eexists. split; [reflexivity|].
    destruct (Z.gtb_spec (money self) 1000); [left; split; [lia | reflexivity]|].
    destruct (Z.ltb_spec (money self) 100);
      [right; left | right; right]; (split; [lia | reflexivity]).
  - eexists. eexists. split; [reflexivity|].
    destruct (Z.gtb_spec (money self) 1000); [left; split; [lia | reflexivity]|].
    destruct (Z.ltb_spec (money self) 100);
      [right; left | right; right]; (split; [lia | reflexivity]).
Qed.

Lemma pete_line (sit emo : string) :
  contains "rich" sit = false ->
  _get_fallback_dialogue "Merchant Pete" sit emo
  = if existsb (String.eqb emo)
         ["happy"; "sad"; "angry"; "surprised"; "fearful"]
    then _get_fallback_dialogue "Merchant Pete" "" emo
    else if contains "new" sit || contains "starting" sit
         then new_farmer_line else welcome_line.
Proof.
  intros R. unfold _get_fallback_dialogue.
  change (contains "Merchant Pete" "Merchant Pete") with true. cbv iota.
  rewrite R. cbn [existsb].
  destruct (String.eqb emo "happy"%string) eqn:E1; cbn [orb]; [reflexivity|].
  destruct (String.eqb emo "sad"%string) eqn:E2; cbn [orb]; [reflexivity|].
  destruct (String.eqb emo "angry"%string) eqn:E3; cbn [orb]; [reflexivity|].
  destruct (String.eqb emo "surprised"%string) eqn:E4; cbn [orb]; [reflexivity|].
  destruct (String.eqb emo "fearful"%string) eqn:E5; cbn [orb]; [reflexivity|].
  reflexivity.
Qed.

(** X25.  When the dialogue box has no manager in use, [toggle_shop]
    makes the trader say the static trader line.  When its manager is not
    online, the trader says the line of the emotion for happy, sad, angry,
    surprised and fearful, and otherwise the new-farmer line when the
    player has less than 100 and the plain welcome line when the player
    has 100 or more.  The line for a rich player is never said: none of
    the three situation texts of [toggle_shop] contains "rich". *)
Theorem trader_lines_without_service (remote : remote_service) (rnd : nat)
    (self : Level.Level) :
  let ds := dialogue_system self in
  let ctx := snd (shop_context rnd self) in
  ((if ai_enabled ds then ai_manager ds else None) = None ->
   dialogue_text remote ds "trader" ctx
   = Returns (_get_static_fallback "trader"))
  /\ (forall m e,
         (if ai_enabled ds then ai_manager ds else None) = Some m ->
         online m = false ->
         emotion ctx = Some e ->
         dialogue_text remote ds "trader" ctx <> Returns rich_line
         /\ dialogue_text remote ds "trader" ctx
            = Returns
                (if existsb (String.eqb e)
                      ["happy"; "sad"; "angry"; "surprised"; "fearful"]
                 then _get_fallback_dialogue "Merchant Pete" "" e
                 else if (money self <? 100)%Z then new_farmer_line
                      else welcome_line)).
Proof.
  cbv zeta. split.
  - intros H. unfold dialogue_text. now rewrite H.
  - intros m e H O E.
    destruct (shop_context_fields rnd self) as [sit [emo [C S]]].
    rewrite C in E |- *. cbn [emotion] in E. injection E as ->.
    unfold dialogue_text. rewrite H.
    cbn [npc_name npc_role situation emotion get_default].
    rewrite (generate_offline remote m _ _ _ _ O). cbn [snd].
    assert (L : _get_fallback_dialogue "Merchant Pete" sit e
                = if existsb (String.eqb e)
                       ["happy"; "sad"; "angry"; "surprised"; "fearful"]
                  then _get_fallback_dialogue "Merchant Pete" "" e
                  else if (money self <? 100)%Z then new_farmer_line
                       else welcome_line).
    { destruct S as [[M ->] | [[M ->] | [M ->]]];
        rewrite pete_line by reflexivity;
        destruct (existsb _ _); try reflexivity;
        destruct (Z.ltb_spec (money self) 100); try lia; reflexivity. }
    rewrite L. split; [|reflexivity].
    cbn [existsb].
    destruct (String.eqb_spec e "happy") as [-> | N1]; [discriminate|].
    destruct (String.eqb_spec e "sad") as [-> | N2]; [discriminate|].
    destruct (String.eqb_spec e "angry") as [-> | N3]; [discriminate|].
    destruct (String.eqb_spec e "surprised") as [-> | N4]; [discriminate|].
    destruct (String.eqb_spec e "fearful") as [-> | N5]; [discriminate|].
    cbn [orb]. destruct (money self <? 100)%Z; discriminate.
Qed.

Lemma trader_lines_without_service_witness :
  dialogue_text dead_service
    (Dialogue.init true true true FileNotFound (fun _ => true)) "trader"
    (snd (shop_context 0
            (mk_level (Deque.mk_deque 5 ["sad"]) 5000
               (Dialogue.init true true true FileNotFound (fun _ => true)))))
  = Returns (_get_fallback_dialogue "Merchant Pete" "" "sad").
Proof.
  apply (proj2 (trader_lines_without_service dead_service 0
                  (mk_level (Deque.mk_deque 5 ["sad"]) 5000
                     (Dialogue.init true true true FileNotFound
                        (fun _ => true))))
           (AIDialogue.init true FileNotFound (fun _ => true)) "sad"
           eq_refl eq_refl eq_refl).
Defined.

End TraderExtras.
